(** * CumulusCI: DeployBundles and UploadProfilePhoto

  A shallow embedding of
    - cumulusci/tasks/salesforce/DeployBundles.py
    - cumulusci/tasks/salesforce/users/photos.py
  and the properties of these two tasks.

  Python [str] values are modelled as [string] (characters with code points
  0..255); [dict]s whose order matters are association lists, the others
  are [gmap]s; exceptions are values of [exn]; every call to an external
  collaborator (filesystem, deploy api, Salesforce client, logger) is an
  explicit step of a state-and-exception monad which records it in a trace. *)

From Stdlib Require Import String Ascii List ZArith Lia.
From stdpp Require Import base list strings gmap sorting pretty.

Set Warnings "-register-all".
Open Scope string_scope.
Open Scope list_scope.
Open Scope nat_scope.

(** ** Fragments of the Python runtime used by the two tasks *)

Module Py.

(** Exceptions that the tasks raise, catch or let through. *)
Inductive exn : Type :=
| CumulusCIException (arg : option string)
    (* [arg] is the constructor argument: [None] is Python's None *)
| SalesforceMalformedRequest (content : list (gmap string string))
| AttributeError (attr : string)
| IndexError
| KeyError (key : string)
| OSError (filename : string)
| ExternalError (what : string).
    (* any other exception of a collaborator *)

Inductive outcome (A : Type) : Type :=
| Returned (a : A)
| Raised (e : exn).
Arguments Returned {A} a.
Arguments Raised {A} e.

(** [sep.join(l)] *)
Fixpoint join (sep : string) (l : list string) : string :=
  match l with
  | [] => ""
  | [s] => s
  | s :: l' => s +:+ sep +:+ join sep l'
  end.

(** [s.startswith("/")] and [s.endswith("/")] *)
Definition startswith_sep (s : string) : bool :=
  match s with
  | String c _ => bool_decide (c = "/"%char)
  | EmptyString => false
  end.

Fixpoint endswith_sep (s : string) : bool :=
  match s with
  | EmptyString => false
  | String c EmptyString => bool_decide (c = "/"%char)
  | String _ s' => endswith_sep s'
  end.

(** [os.path.join(a, b)] of posixpath. *)
Definition os_path_join (a b : string) : string :=
  if startswith_sep b then b
  else if bool_decide (a = "") || endswith_sep a then a +:+ b
  else a +:+ "/" +:+ b.

(** [os.path.basename(p)] of posixpath: what follows the last slash. *)
Fixpoint basename_from (cur p : string) : string :=
  match p with
  | EmptyString => cur
  | String c p' =>
      if bool_decide (c = "/"%char) then basename_from "" p'
      else basename_from (cur +:+ String c "") p'
  end.
Definition os_path_basename (p : string) : string := basename_from "" p.

(** [sorted(l)] on a list of [str]: a stable merge sort by code points. *)
Definition sorted (l : list string) : list string := merge_sort String.le l.

(** [enumerate(l, start)] *)
Fixpoint enumerate {A : Type} (l : list A) (start : nat) : list (nat * A) :=
  match l with
  | [] => []
  | x :: l' => (start, x) :: enumerate l' (S start)
  end.

(** [str(n)] for a non-negative [int]. *)
Definition str_of_nat (n : nat) : string := pretty n.

(** *** [json.dumps] with its default arguments *)

Inductive json : Type :=
| JNull
| JStr (s : string)
| JList (l : list json)
| JDict (items : list (string * json)).

Definition hex_digit (n : N) : ascii :=
  match n with
  | 0 => "0" | 1 => "1" | 2 => "2" | 3 => "3" | 4 => "4" | 5 => "5"
  | 6 => "6" | 7 => "7" | 8 => "8" | 9 => "9" | 10 => "a" | 11 => "b"
  | 12 => "c" | 13 => "d" | 14 => "e" | _ => "f"
  end%N%char.

(** The double quote character. *)
Definition dquote : ascii := "034"%char.

(** One character of a string literal, [ensure_ascii=True]. *)
Definition json_escape_char (c : ascii) : string :=
  let n := N_of_ascii c in
  if bool_decide (c = dquote) then String "\" (String dquote "")
  else if bool_decide (c = "\"%char) then "\\"
  else if (n =? 10)%N then "\n"
  else if (n =? 13)%N then "\r"
  else if (n =? 9)%N then "\t"
  else if (n =? 8)%N then "\b"
  else if (n =? 12)%N then "\f"
  else if (32 <=? n)%N && (n <=? 126)%N then String c ""
  else "\u00" +:+ String (hex_digit (n / 16)) (String (hex_digit (n mod 16)) "").

Fixpoint json_escape (s : string) : string :=
  match s with
  | EmptyString => ""
  | String c s' => json_escape_char c +:+ json_escape s'
  end.

Definition json_quote (s : string) : string :=
  String dquote (json_escape s) +:+ String dquote "".

Fixpoint json_dumps (j : json) : string :=
  match j with
  | JNull => "null"
  | JStr s => json_quote s
  | JList l => "[" +:+ join ", " (map json_dumps l) +:+ "]"
  | JDict items =>
      "{" +:+
      join ", " (map (fun kv => json_quote (fst kv) +:+ ": " +:+ json_dumps (snd kv)) items)
      +:+ "}"
  end.

Definition json_of_opt (o : option string) : json :=
  match o with Some s => JStr s | None => JNull end.

(** [d[key]] on a dictionary with string values. *)
Definition getitem (d : gmap string string) (key : string) : outcome string :=
  match d !! key with
  | Some v => Returned v
  | None => Raised (KeyError key)
  end.

(** [s[-n:]] for a positive [n]: the last [n] characters, or all of [s]. *)
Fixpoint string_drop (k : nat) (s : string) : string :=
  match k, s with
  | S k', String _ s' => string_drop k' s'
  | _, _ => s
  end.
Definition str_last (n : nat) (s : string) : string :=
  string_drop (String.length s - n) s.

(** [str(v)] for the option values a caller can give. *)
Inductive pyvalue : Type :=
| VStr (s : string)
| VInt (z : Z)
| VBool (b : bool)
| VNone.

Definition py_str (v : pyvalue) : string :=
  match v with
  | VStr s => s
  | VInt z => pretty z
  | VBool true => "True"
  | VBool false => "False"
  | VNone => "None"
  end.

(** *** [re.sub] for a pattern anchored by [^], with [re.IGNORECASE]

    The pattern after the anchor is a sequence of characters [c] and optional
    characters [c?]; its characters are ASCII. Without [re.MULTILINE] the
    anchor matches at position 0 only, so at most one match is replaced. *)
Inductive re_item : Type :=
| RLit (c : ascii)
| ROpt (c : ascii).

Definition ascii_lower (c : ascii) : ascii :=
  let n := N_of_ascii c in
  if (65 <=? n)%N && (n <=? 90)%N then ascii_of_N (n + 32) else c.

Definition eq_ignorecase (c c' : ascii) : bool :=
  bool_decide (ascii_lower c = ascii_lower c').

(** The rest of [s] after the greedy match of [pat] at its start, if any. *)
Fixpoint re_match_start (pat : list re_item) (s : string) : option string :=
  match pat with
  | [] => Some s
  | RLit c :: pat' =>
      match s with
      | String c' s' => if eq_ignorecase c c' then re_match_start pat' s' else None
      | EmptyString => None
      end
  | ROpt c :: pat' =>
      match s with
      | String c' s' =>
          if eq_ignorecase c c' then
            match re_match_start pat' s' with
            | Some rest => Some rest
            | None => re_match_start pat' s
            end
          else re_match_start pat' s
      | EmptyString => re_match_start pat' s
      end
  end.

Definition re_sub_start (pat : list re_item) (repl s : string) : string :=
  match re_match_start pat s with
  | Some rest => repl +:+ rest
  | None => s
  end.

(** *** [pathlib.PurePosixPath] *)

Fixpoint split_sep_from (cur p : string) : list string :=
  match p with
  | EmptyString => [cur]
  | String c p' =>
      if bool_decide (c = "/"%char) then cur :: split_sep_from "" p'
      else split_sep_from (cur +:+ String c "") p'
  end.

(** The components after the root: empty and [.] components are dropped. *)
Definition path_parts (p : string) : list string :=
  filter (fun s => s <> "" /\ s <> ".") (split_sep_from "" p).

(** Exactly two leading slashes are kept, any other number is one root. *)
Definition path_root (p : string) : string :=
  match p with
  | String "/" (String "/" (String "/" _)) => "/"
  | String "/" (String "/" _) => "//"
  | String "/" _ => "/"
  | _ => ""
  end.

(** [str(path)] *)
Definition path_str (p : string) : string :=
  let s := path_root p +:+ join "/" (path_parts p) in
  if bool_decide (s = "") then "." else s.

(** [path.name] *)
Definition path_name (p : string) : string := List.last (path_parts p) "".

(** [name.rfind(".")], as the index if there is one. *)
Fixpoint rfind_dot (s : string) : option nat :=
  match s with
  | EmptyString => None
  | String c s' =>
      match rfind_dot s' with
      | Some i => Some (S i)
      | None => if bool_decide (c = "."%char) then Some 0 else None
      end
  end.

Fixpoint string_take (k : nat) (s : string) : string :=
  match k, s with
  | S k', String c s' => String c (string_take k' s')
  | _, _ => ""
  end.

(** [path.stem] *)
Definition path_stem (p : string) : string :=
  let name := path_name p in
  match rfind_dot name with
  | Some i =>
      if ((0 <? i) && (i <? String.length name - 1))%nat then string_take i name
      else name
  | None => name
  end.

(** *** [base64.b64encode(b).decode("utf-8")], bytes being characters *)

Definition b64_alphabet : string :=
  "ABCDEFGHIJKLMNOPQRSTUVWXYZabcdefghijklmnopqrstuvwxyz0123456789+/".

Definition b64_char (n : N) : ascii :=
  match String.get (N.to_nat n) b64_alphabet with
  | Some c => c
  | None => "="%char
  end.

Fixpoint b64encode (b : string) : string :=
  match b with
  | EmptyString => ""
  | String x EmptyString =>
      let nx := N_of_ascii x in
      String (b64_char (nx / 4)) (String (b64_char (nx mod 4 * 16)) "==")
  | String x (String y EmptyString) =>
      let nx := N_of_ascii x in
      let ny := N_of_ascii y in
      String (b64_char (nx / 4))
        (String (b64_char (nx mod 4 * 16 + ny / 16))
           (String (b64_char (ny mod 16 * 4)) "="))
  | String x (String y (String z b')) =>
      let nx := N_of_ascii x in
      let ny := N_of_ascii y in
      let nz := N_of_ascii z in
      String (b64_char (nx / 4))
        (String (b64_char (nx mod 4 * 16 + ny / 16))
           (String (b64_char (ny mod 16 * 4 + nz / 64))
              (String (b64_char (nz mod 64)) (b64encode b'))))
  end%N.

(** *** The monad of a task run

    A run threads the state [St] of the external collaborators and the
    trace of the calls made so far, and ends by returning or raising. *)
Section Monad.
Context {St Ev : Type}.

Record world : Type := World { ext : St; trace : list Ev }.

Definition M (A : Type) : Type := world -> outcome A * world.

Definition ret {A} (a : A) : M A := fun w => (Returned a, w).
Definition raise {A} (e : exn) : M A := fun w => (Raised e, w).
Definition bind {A B} (m : M A) (k : A -> M B) : M B :=
  fun w =>
    match m w with
    | (Returned a, w') => k a w'
    | (Raised e, w') => (Raised e, w')
    end.

(** A call to a collaborator: it answers from the external state, and the
    call with its answer is appended to the trace. *)
Definition call {A} (op : St -> outcome A * St) (ev : outcome A -> Ev) : M A :=
  fun w =>
    let '(r, s') := op (ext w) in
    (r, World s' (trace w ++ [ev r])).

(** An event with no answer (a log line). *)
Definition emit (ev : Ev) : M unit :=
  fun w => (Returned tt, World (ext w) (trace w ++ [ev])).

(** [try: m  except <those e for which h e is Some>: handler] *)
Definition try_except {A} (m : M A) (h : exn -> option (M A)) : M A :=
  fun w =>
    match m w with
    | (Returned a, w') => (Returned a, w')
    | (Raised e, w') =>
        match h e with
        | Some handler => handler w'
        | None => (Raised e, w')
        end
    end.

(** [for x in l: body(x)] *)
Fixpoint for_each {A} (l : list A) (body : A -> M unit) : M unit :=
  match l with
  | [] => ret tt
  | x :: l' => bind (body x) (fun _ => for_each l' body)
  end.
End Monad.
Arguments world : clear implicits.
Arguments M : clear implicits.

End Py.

Export Py.

Notation "x <~ m ;; k" := (Py.bind m (fun x => k))
  (at level 100, m at next level, right associativity, only parsing).
Notation "m ;;; k" := (Py.bind m (fun _ => k))
  (at level 100, right associativity, only parsing).

(** Log records of [self.logger]. *)
Inductive level : Type := INFO | WARNING | ERROR.

(** ** cumulusci/tasks/salesforce/DeployBundles.py *)

Module DeployBundles.

(** The filesystem as the task sees it through [os]: the working directory,
    [os.path.isdir] and [os.listdir] (which raises on a path that is not a
    directory, and gives the entries in no particular order). *)
Record filesystem : Type := Filesystem {
  getcwd : string;
  isdir : string -> bool;
  listdir : string -> outcome (list string)
}.

(** [self.options] *)
Record task_options : Type := Options { opt_path : string }.

(** [self.project_config] *)
Record project_config : Type := ProjectConfig {
  repo_owner : option string;
  repo_name : option string;
  repo_commit : option string
}.

(** The [step] argument of [freeze]. *)
Record step_spec : Type := StepSpec { parent_path : string; parent_step_num : string }.

(** One element of the list [freeze] returns. *)
Record frozen_step : Type := FrozenStep {
  name : string;
  path : string;
  step_num : string;
  kind : string;
  is_required : bool;
  task_class : string;
  task_config : string
}.

Inductive event : Type :=
| Log (lvl : level) (msg : string)
| Deploy (bundle_path : string) (r : outcome unit).

(** The bundle paths handed to the deploy api, in call order. *)
Definition deployed (tr : list event) : list string :=
  omap (fun ev => match ev with Deploy p _ => Some p | Log _ _ => None end) tr.

Section Task.
Context {St : Type}.
(** [self._get_api(path)()] of the base class [Deploy]: an opaque collaborator. *)
Variable api : string -> St -> outcome unit * St.
Variable fs : filesystem.
Variable options : task_options.
Variable config : project_config.

Definition logger (lvl : level) (msg : string) : M St event unit :=
  emit (Log lvl msg).

Definition _deploy_bundle (path : string) : M St event unit :=
  call (api path) (Deploy path).

Definition _run_task : M St event unit :=
  let path0 := opt_path options in
  let pwd := getcwd fs in
  let path := os_path_join pwd path0 in
  logger INFO ("Deploying all metadata bundles in path " +:+ path) ;;;
  if negb (isdir fs path) then
    logger WARNING ("Path " +:+ path +:+ " not found, skipping") ;;;
    ret tt
  else
    match listdir fs path with
    | Raised e => raise e
    | Returned entries =>
        for_each (sorted entries) (fun item =>
          let item_path := os_path_join path item in
          if negb (isdir fs item_path) then ret tt (* continue *)
          else
            logger INFO ("Deploying bundle: " +:+ opt_path options +:+ "/" +:+ item) ;;;
            _deploy_bundle item_path)
    end.

(** The [task_config] dictionary of one step. *)
Definition step_task_config (path item : string) : json :=
  JDict [("options",
    JDict [("dependencies",
      JList [JDict [("repo_owner", json_of_opt (repo_owner config));
                    ("repo_name", json_of_opt (repo_name config));
                    ("tag", json_of_opt (repo_commit config));
                    ("subfolder", JStr (join "/" [path; item]))]])])].

(** The dictionary appended for entry [item] with index [i]. *)
Definition freeze_step (step : step_spec) (path : string) (i : nat) (item : string)
  : frozen_step :=
  let name := os_path_basename item in
  {| name := "Deploy " +:+ path +:+ "/" +:+ name;
     path := parent_path step +:+ "." +:+ name;
     step_num := parent_step_num step +:+ "." +:+ str_of_nat i;
     kind := "metadata";
     is_required := true;
     task_class := "cumulusci.tasks.salesforce.UpdateDependencies";
     task_config := json_dumps (step_task_config path item) |}.

Definition freeze (step : step_spec) : M St event (list frozen_step) :=
  let path := opt_path options in
  match listdir fs path with
  | Raised e => raise e
  | Returned entries =>
      ret (fold_left
             (fun steps '(i, item) => (steps ++ [freeze_step step path i item])%list)
             (enumerate (sorted entries) 1)
             [])
  end.

End Task.
End DeployBundles.


(** ** cumulusci/tasks/salesforce/users/photos.py *)

Module Photos.

(** One entry of [describe()["fields"]]. *)
Record user_field : Type := UserField {
  field_name : string;
  filterable : bool;
  soapType : string
}.

(** The dictionary given to [ContentVersion.create]. *)
Record content_version : Type := ContentVersion {
  PathOnClient : string;
  Title : string;
  VersionData : string
}.

(** The answer of [ContentVersion.create]; [errors] is held as its [str()]. *)
Record create_result : Type := CreateResult {
  success : bool;
  id : string;
  errors : string
}.

(** A row of a query result. *)
Abbreviation row := (gmap string string).

(** The calls that reach the platform client [self.sf], with their answers,
    and the log records. *)
Inductive event : Type :=
| Log (lvl : level) (msg : string)
| Describe (r : outcome (list user_field))
| QueryAll (soql : string) (r : outcome (list row))
| Query (soql : string) (r : outcome (list row))
| Create (fields : content_version) (r : outcome create_result)
| Delete (content_document_id : string) (r : outcome unit)
| Restful (path method : string) (data : option string) (r : outcome (gmap string string)).

Definition is_platform_call (ev : event) : bool :=
  match ev with Log _ _ => false | _ => true end.

Definition is_restful (ev : event) : bool :=
  match ev with Restful _ _ _ _ => true | _ => false end.

(** The content documents whose deletion was asked, in call order. *)
Definition deletes (tr : list event) : list string :=
  omap (fun ev => match ev with Delete d _ => Some d | _ => None end) tr.

(** The platform calls of a trace, without the log records. *)
Definition platform_calls (tr : list event) : list event :=
  List.filter is_platform_call tr.

(** The platform client: each operation answers from the platform state, by
    a value or by an exception. *)
Record sf_client (St : Type) : Type := SfClient {
  User_describe : St -> outcome (list user_field) * St;
  query_all : string -> St -> outcome (list row) * St;
  query : string -> St -> outcome (list row) * St;
  ContentVersion_create : content_version -> St -> outcome create_result * St;
  ContentDocument_delete : string -> St -> outcome unit * St;
  restful : string -> string -> option string -> St -> outcome (gmap string string) * St
}.
Arguments User_describe {St}.
Arguments query_all {St}.
Arguments query {St}.
Arguments ContentVersion_create {St}.
Arguments ContentDocument_delete {St}.
Arguments restful {St}.

(** What [pathlib] reads of the filesystem. *)
Record filesystem : Type := Filesystem {
  exists_ : string -> bool;
  read_bytes : string -> outcome string
}.

(** [self.options]: [where_] is the option [where], [None] when not given. *)
Record task_options : Type := Options {
  photo : string;
  where_ : option string
}.

(** [join_errors]: the joined text is computed and dropped, the function has
    no [return] and so gives None. *)
Definition join_errors (content : list (gmap string string)) : option string :=
  let _joined :=
    join "; " (map (fun error => default "Unknown error." (error !! "message")) content) in
  None.

(** The pattern [^WHERE ?]. *)
Definition where_prefix : list re_item :=
  [RLit "W"; RLit "H"; RLit "E"; RLit "R"; RLit "E"; ROpt " "].

(** The query of [_get_user_id_by_query] for a [where] option. *)
Definition user_query (where_ : string) : string :=
  "SELECT Id FROM User WHERE " +:+ re_sub_start where_prefix "" where_.

Definition string_soap_types : list string := ["xsd:string"; "tns:ID"; "urn:address"].

Definition field_not_found (name : string) : string :=
  "User Field " +:+ String dquote name +:+ String dquote " referenced in "
  +:+ String dquote "filters" +:+ String dquote
  " option is not found.  Fields are case-sensitive.".

Definition field_not_filterable (name : string) : string :=
  "User Field " +:+ String dquote name +:+ String dquote " referenced in "
  +:+ String dquote "filters" +:+ String dquote " option must be filterable.".

(** The loop of [_get_user_fields]: [user_fields[field["name"]] = field]. *)
Definition user_fields_of (fields : list user_field) : gmap string user_field :=
  fold_left (fun (user_fields : gmap string user_field) field =>
               <[field_name field := field]> user_fields) fields ∅.

Section Task.
Context {St : Type}.
Variable sf : sf_client St.
Variable fs : filesystem.
Variable options : task_options.
(** The attribute [_get_default_user_id] that the class inherits, if its base
    class [BaseSalesforceApiTask] has one: the class body binds only
    [get_default_user_id]. *)
Variable inherited_get_default_user_id : option (M St event string).

Definition logger (lvl : level) (msg : string) : M St event unit :=
  emit (Log lvl msg).

Definition lift {A} (r : outcome A) : M St event A :=
  match r with Returned a => ret a | Raised e => raise e end.

Definition _raise_cumulusci_exception {A} (content : list (gmap string string))
  : M St event A :=
  raise (CumulusCIException (join_errors content)).

Definition _get_user_fields : M St event (gmap string user_field) :=
  fields <~ call (User_describe sf) Describe ;;
  ret (user_fields_of fields).

(** The body of the loop of [_get_query], run over the remaining items. *)
Fixpoint _get_query_loop (user_fields : gmap string user_field)
  (items : list (string * pyvalue)) (query_filters : list string)
  : M St event (list string) :=
  match items with
  | [] => ret query_filters
  | (name, value) :: items' =>
      match user_fields !! name with
      | None => raise (CumulusCIException (Some (field_not_found name)))
      | Some field =>
          if negb (filterable field) then
            raise (CumulusCIException (Some (field_not_filterable name)))
          else if bool_decide (soapType field ∈ string_soap_types) then
            _get_query_loop user_fields items'
              (query_filters ++ [name +:+ " = '" +:+ py_str value +:+ "'"])%list
          else
            _get_query_loop user_fields items'
              (query_filters ++ [name +:+ " = " +:+ py_str value])%list
      end
  end.

Definition _get_query (filters : list (string * pyvalue)) : M St event string :=
  user_fields <~ _get_user_fields ;;
  query_filters <~ _get_query_loop user_fields filters [] ;;
  ret ("SELECT Id FROM User WHERE " +:+ join " AND " query_filters).

(** [for record in records: user_ids.append(record["Id"])] *)
Fixpoint collect_ids (records : list row) (user_ids : list string)
  : M St event (list string) :=
  match records with
  | [] => ret user_ids
  | record :: records' =>
      i <~ lift (getitem record "Id") ;;
      collect_ids records' (user_ids ++ [i])%list
  end.

Definition _get_user_id_by_query (where_ : string) : M St event string :=
  let query := user_query where_ in
  logger INFO ("Querying User: " +:+ query) ;;;
  user_ids <~ try_except
    (records <~ call (query_all sf query) (QueryAll query) ;;
     collect_ids records [])
    (fun e => match e with
              | SalesforceMalformedRequest content =>
                  Some (_raise_cumulusci_exception content)
              | _ => None
              end) ;;
  if (length user_ids <? 1)%nat then
    raise (CumulusCIException (Some "No Users found."))
  else if (1 <? length user_ids)%nat then
    raise (CumulusCIException (Some (
      "More than one User found (" +:+ str_of_nat (length user_ids) +:+ "): "
      +:+ join ", " user_ids)))
  else
    match user_ids with
    | user_id :: _ =>
        logger INFO ("Uploading profile photo for the User with ID " +:+ user_id) ;;;
        ret user_id
    | [] => raise IndexError
    end.

Definition get_default_user_id : M St event string :=
  response <~ call (restful sf "" "GET" None) (Restful "" "GET" None) ;;
  identity <~ lift (getitem response "identity") ;;
  let user_id := str_last 18 identity in
  logger INFO ("Uploading profile photo for the default User with ID " +:+ user_id) ;;;
  ret user_id.

(** [self._get_default_user_id()]: the attribute lookup on [self]. *)
Definition self__get_default_user_id : M St event string :=
  match inherited_get_default_user_id with
  | Some method => method
  | None => raise (AttributeError "_get_default_user_id")
  end.

Definition _insert_content_document : M St event string :=
  let path := photo options in
  if negb (exists_ fs (path_str path)) then
    raise (CumulusCIException (Some ("No photo found at path: " +:+ path_str path)))
  else
    logger INFO ("Setting user photo to " +:+ path_str path) ;;;
    bytes <~ lift (read_bytes fs (path_str path)) ;;
    let fields := {| PathOnClient := path_name path;
                     Title := path_stem path;
                     VersionData := b64encode bytes |} in
    result <~ call (ContentVersion_create sf fields) (Create fields) ;;
    if negb (success result) then
      raise (CumulusCIException (Some (
        "Failed to create photo ContentVersion: " +:+ errors result)))
    else
      let content_version_id := id result in
      let soql := "SELECT Id, ContentDocumentId FROM ContentVersion WHERE Id = '"
                  +:+ content_version_id +:+ "'" in
      records <~ call (query sf soql) (Query soql) ;;
      match records with
      | [] => raise IndexError
      | record :: _ =>
          content_document_id <~ lift (getitem record "ContentDocumentId") ;;
          logger INFO ("Uploaded profile photo ContentDocument " +:+ content_document_id) ;;;
          ret content_document_id
      end.

Definition _delete_content_document (content_document_id : string) : M St event unit :=
  call (ContentDocument_delete sf content_document_id) (Delete content_document_id).

(** The Connect API endpoint and body of the call that sets the photo. *)
Definition photo_endpoint (user_id : string) : string :=
  "connect/user-profiles/" +:+ user_id +:+ "/photo".
Definition photo_body (content_document_id : string) : string :=
  json_dumps (JDict [("fileId", JStr content_document_id)]).

(** [_run_task] from the call of [_insert_content_document] on, for the user
    resolved before it. *)
Definition uploadPhoto (user_id : string) : M St event unit :=
  content_document_id <~ _insert_content_document ;;
  try_except
    (_ <~ call (restful sf (photo_endpoint user_id) "POST"
                  (Some (photo_body content_document_id)))
               (Restful (photo_endpoint user_id) "POST"
                  (Some (photo_body content_document_id))) ;;
     ret tt)
    (fun e => match e with
              | SalesforceMalformedRequest content => Some (
                  logger ERROR
                    "An error occured setting the ContentDocument as the users's profile photo." ;;;
                  logger ERROR ("Deleting ContentDocument " +:+ content_document_id) ;;;
                  _delete_content_document content_document_id ;;;
                  _raise_cumulusci_exception content)
              | _ => None
              end).

(** The user the photo is for: [self.options.get("where")] is falsy when the
    option is absent or empty. *)
Definition resolve_user_id : M St event string :=
  match where_ options with
  | Some w =>
      if bool_decide (w = "") then self__get_default_user_id
      else _get_user_id_by_query w
  | None => self__get_default_user_id
  end.

Definition _run_task : M St event unit :=
  user_id <~ resolve_user_id ;;
  uploadPhoto user_id.

End Task.
End Photos.

(** ** The specification's wording, to compare the code with *)

Module Spec.

(** Every message of a platform error joined by [; ], a missing one being
    [Unknown error.]. *)
Definition joined_messages (content : list (gmap string string)) : string :=
  join "; " (map (fun error => default "Unknown error." (error !! "message")) content).

(** [msg] contains [s]. *)
Definition contains (msg s : string) : Prop :=
  exists pre post, msg = pre +:+ s +:+ post.

Fixpoint string_lower (s : string) : string :=
  match s with
  | EmptyString => ""
  | String c s' => String (ascii_lower c) (string_lower s')
  end.

(** [w] without one leading [WHERE] token, in any case, and the single space
    that may follow it. *)
Definition strip_leading_where (w : string) : string :=
  if bool_decide (string_lower (string_take 5 w) = "where") then
    match string_drop 5 w with
    | String " " rest => rest
    | rest => rest
    end
  else w.

(** The field of the schema called [name], compared as is: the last one when
    the schema lists the name twice. *)
Definition schema_field (fields : list Photos.user_field) (name : string)
  : option Photos.user_field :=
  last (filter (fun f => Photos.field_name f = name) fields).

(** A field of a string, ID or address soap type. *)
Definition is_string_typed (f : Photos.user_field) : bool :=
  bool_decide (Photos.soapType f ∈ ["xsd:string"; "tns:ID"; "urn:address"]).

(** One term of the conjunction: the value in single quotes when [quoted],
    bare otherwise. *)
Definition render_term (quoted : bool) (name : string) (value : pyvalue) : string :=
  if quoted then name +:+ " = '" +:+ py_str value +:+ "'"
  else name +:+ " = " +:+ py_str value.

(** The name is that of a string typed field of the schema. *)
Definition is_string_field (fields : list Photos.user_field) (name : string) : bool :=
  match schema_field fields name with
  | Some f => is_string_typed f
  | None => false
  end.

(** The term of one filter: quoted for a string typed field, bare for a
    field of any other type. *)
Definition render_filter (fields : list Photos.user_field) (item : string * pyvalue)
  : string :=
  render_term (is_string_field fields (fst item)) (fst item) (snd item).

(** The field can be filtered on: it is in the schema and filterable. *)
Definition can_filter (fields : list Photos.user_field) (name : string) : Prop :=
  exists f, schema_field fields name = Some f /\ Photos.filterable f = true.

End Spec.

(** ** Concrete runs *)

Module Scenario.

(** A project whose bundle directory holds two bundles and a file. *)
Definition bundle_dirs : list string :=
  ["/repo/unpackaged/pre"; "/repo/unpackaged/pre/a"; "/repo/unpackaged/pre/b"].

Definition bundle_fs : DeployBundles.filesystem :=
  DeployBundles.Filesystem "/repo"
    (fun p => bool_decide (p ∈ bundle_dirs))
    (fun p =>
       if bool_decide (p ∈ ["/repo/unpackaged/pre"; "unpackaged/pre"])
       then Returned ["b"; "README.md"; "a"]
       else Raised (OSError p)).

(** The same directory, listed by the system in another order. *)
Definition bundle_fs' : DeployBundles.filesystem :=
  DeployBundles.Filesystem "/repo"
    (fun p => bool_decide (p ∈ bundle_dirs))
    (fun p =>
       if bool_decide (p ∈ ["/repo/unpackaged/pre"; "unpackaged/pre"])
       then Returned ["a"; "b"; "README.md"]
       else Raised (OSError p)).

Definition bundle_options : DeployBundles.task_options :=
  DeployBundles.Options "unpackaged/pre".

Definition missing_options : DeployBundles.task_options :=
  DeployBundles.Options "unpackaged/post".

Definition repo : DeployBundles.project_config :=
  DeployBundles.ProjectConfig (Some "SFDO") (Some "Repo") (Some "abc123").

Definition parent : DeployBundles.step_spec := DeployBundles.StepSpec "deploy_pre" "1".

(** A deploy api that accepts every bundle and counts them. *)
Definition api_ok (p : string) (n : nat) : outcome unit * nat := (Returned tt, S n).

Definition start : world nat DeployBundles.event := World 0 [].

(** An org with the given users matching the query; the call that sets the
    photo is accepted or rejected with two messages. *)
Definition grace : gmap string string := {[ "Id" := "005A" ]}.
Definition grace' : gmap string string := {[ "Id" := "005B" ]}.
Definition version_row : gmap string string :=
  {[ "Id" := "068X"; "ContentDocumentId" := "069D" ]}.
Definition rejection : list (gmap string string) :=
  [ {[ "message" := "bad photo" ]}; {[ "message" := "try again" ]} ].
Definition user_schema : list Photos.user_field :=
  [Photos.UserField "Alias" true "xsd:string";
   Photos.UserField "IsActive" true "xsd:boolean";
   Photos.UserField "AboutMe" false "xsd:string"].

Definition org (users : list (gmap string string)) (link_ok : bool)
  : Photos.sf_client unit :=
  Photos.SfClient unit
    (fun s => (Returned user_schema, s))
    (fun q s => (Returned users, s))
    (fun q s => (Returned [version_row], s))
    (fun f s => (Returned (Photos.CreateResult true "068X" "[]"), s))
    (fun d s => (Returned tt, s))
    (fun p m d s =>
       if link_ok then (Returned ∅, s)
       else (Raised (SalesforceMalformedRequest rejection), s)).

Definition photo_fs : Photos.filesystem :=
  Photos.Filesystem (fun p => bool_decide (p = "datasets/profile.png"))
                    (fun p => Returned "Man").

Definition photo_options (w : option string) : Photos.task_options :=
  Photos.Options "datasets/profile.png" w.

Definition no_photo_options (w : option string) : Photos.task_options :=
  Photos.Options "datasets/missing.png" w.

Definition org_start : world unit Photos.event := World tt [].


End Scenario.

(** ** Parts of the bodies of the tasks, named to state properties of them *)

Module Parts.

(** The body of the loop of [DeployBundles._run_task] after the test that the
    entry is a directory: the log record and the deployment. *)
Definition deploy_step {St : Type} (api : string -> St -> outcome unit * St)
    (options : DeployBundles.task_options) (dir item : string)
  : M St DeployBundles.event unit :=
  DeployBundles.logger INFO
    ("Deploying bundle: " +:+ DeployBundles.opt_path options +:+ "/" +:+ item) ;;;
  DeployBundles._deploy_bundle api (os_path_join dir item).

(** The body of the loop, for any entry. *)
Definition entry_step {St : Type} (api : string -> St -> outcome unit * St)
    (fs : DeployBundles.filesystem) (options : DeployBundles.task_options)
    (dir item : string) : M St DeployBundles.event unit :=
  if negb (DeployBundles.isdir fs (os_path_join dir item)) then ret tt
  else deploy_step api options dir item.

(** The two events of the deployment of one bundle, answered by [r]. *)
Definition deploy_events (options : DeployBundles.task_options) (dir item : string)
    (r : outcome unit) : list DeployBundles.event :=
  [DeployBundles.Log INFO
     ("Deploying bundle: " +:+ DeployBundles.opt_path options +:+ "/" +:+ item);
   DeployBundles.Deploy (os_path_join dir item) r].

(** The entries of a listing that [_run_task] deploys: the directories, in
    sorted order. *)
Definition bundles_of (fs : DeployBundles.filesystem) (dir : string)
    (entries : list string) : list string :=
  filter (fun item => DeployBundles.isdir fs (os_path_join dir item) = true)
         (sorted entries).

(** The state of the deploy api after it has answered for [bundles], in
    order, from the state [s]. *)
Definition state_after {St : Type} (api : string -> St -> outcome unit * St)
    (dir : string) (s : St) (bundles : list string) : St :=
  fold_left (fun s item => snd (api (os_path_join dir item) s)) bundles s.

End Parts.

(** ** More concrete runs *)

Module Cases.

(** A deploy api that fails on the bundle [a] and accepts the others. *)
Definition api_fails_on_a (p : string) (n : nat) : outcome unit * nat :=
  if bool_decide (p = "/repo/unpackaged/pre/a")
  then (Raised (ExternalError "deploy failed"), n)
  else (Returned tt, S n).

(** A directory that cannot be listed. *)
Definition unlisted_fs : DeployBundles.filesystem :=
  DeployBundles.Filesystem "/repo" (fun _ => false) (fun p => Raised (OSError p)).

(** An org whose answers are given one by one. *)
Definition org_of
    (users : outcome (list (gmap string string)))
    (created : Photos.create_result)
    (versions : list (gmap string string))
    (identity : gmap string string) : Photos.sf_client unit :=
  Photos.SfClient unit
    (fun s => (Returned (Scenario.user_schema ++
                         [Photos.UserField "Alias" false "xsd:int"]), s))
    (fun q s => (users, s))
    (fun q s => (Returned versions, s))
    (fun f s => (Returned created, s))
    (fun d s => (Returned tt, s))
    (fun p m d s =>
       if bool_decide (p = "") then (Returned identity, s) else (Returned ∅, s)).

Definition created_ok : Photos.create_result := Photos.CreateResult true "068X" "[]".
Definition created_ko : Photos.create_result :=
  Photos.CreateResult false "" "['STORAGE_LIMIT_EXCEEDED']".

Definition identity_row : gmap string string :=
  {[ "identity" := "https://login.salesforce.com/id/00D000000000001EAA/005000000000002AAA" ]}.

Definition nameless : gmap string string := {[ "Name" := "Grace" ]}.

(** A deploy api that accepts its first call and fails from the second on. *)
Definition api_fails_after_first (p : string) (n : nat) : outcome unit * nat :=
  if (n =? 0)%nat then (Returned tt, 1)
  else (Raised (ExternalError "deploy failed"), S n).

(** An org whose state counts the calls it answers, each operation by its own
    unit: describe and user query 1, create 10, document query 100, REST call
    1000, delete 10000. *)
Definition counting_org (users : list (gmap string string)) (link_ok : bool)
  : Photos.sf_client N :=
  Photos.SfClient N
    (fun s => (Returned Scenario.user_schema, (s + 1)%N))
    (fun q s => (Returned users, (s + 1)%N))
    (fun q s => (Returned [Scenario.version_row], (s + 100)%N))
    (fun f s => (Returned created_ok, (s + 10)%N))
    (fun d s => (Returned tt, (s + 10000)%N))
    (fun p m d s =>
       if link_ok then (Returned ∅, (s + 1000)%N)
       else (Raised (SalesforceMalformedRequest Scenario.rejection), (s + 1000)%N)).

End Cases.

(** * Properties *)

(** ** Sorting and enumeration *)

Lemma sorted_Sorted (l : list string) : Sorted String.le (sorted l).
Proof. apply Sorted_merge_sort; apply _. Qed.

Lemma sorted_Permutation (l : list string) : sorted l ≡ₚ l.
Proof. apply merge_sort_Permutation. Qed.

(** [sorted] depends on the entries listed, not on the order of the listing. *)
Lemma sorted_of_Permutation (l1 l2 : list string) :
  l1 ≡ₚ l2 -> sorted l1 = sorted l2.
Proof.
  intros Hp. apply (Sorted_unique String.le); try apply sorted_Sorted.
  rewrite !sorted_Permutation. exact Hp.
Qed.

Lemma enumerate_lookup {A} (l : list A) (start i : nat) :
  enumerate l start !! i = (fun x => (start + i, x)) <$> l !! i.
Proof.
  revert start i. induction l as [|x l IH]; intros start [|i]; simpl; try done.
  - by rewrite Nat.add_0_r.
  - rewrite IH. replace (S start + i) with (start + S i) by lia. done.
Qed.

Lemma enumerate_length {A} (l : list A) (start : nat) :
  length (enumerate l start) = length l.
Proof. revert start. induction l; intros; simpl; auto. Qed.

Lemma fold_left_snoc_map {A B C} (f : A -> B -> C) (l : list (A * B)) (acc : list C) :
  fold_left (fun steps '(i, x) => steps ++ [f i x]) l acc =
  acc ++ map (fun '(i, x) => f i x) l.
Proof.
  revert acc. induction l as [|[i x] l IH]; intros acc; simpl.
  - by rewrite app_nil_r.
  - rewrite IH, <- app_assoc. done.
Qed.

(** ** DeployBundles *)

Section DeployBundlesFacts.
Import DeployBundles.
Context {St : Type}.
Implicit Types (fs : filesystem) (options : task_options) (w : world St event).

Lemma deployed_app (tr1 tr2 : list event) :
  deployed (tr1 ++ tr2) = deployed tr1 ++ deployed tr2.
Proof. unfold deployed. apply omap_app. Qed.

(** What [freeze] returns, as a function of the listing. *)
Lemma freeze_returns fs options config step w entries :
  listdir fs (opt_path options) = Returned entries ->
  freeze fs options config step w =
    (Returned (map (fun '(i, item) => freeze_step config step (opt_path options) i item)
                   (enumerate (sorted entries) 1)), w).
Proof.
  intros Hl. unfold freeze. rewrite Hl. unfold ret. f_equal. f_equal.
  apply (fold_left_snoc_map (freeze_step config step (opt_path options))).
Qed.

(** The loop of [_run_task] when the deploy api accepts every bundle: the
    bundles deployed are the entries that are directories, in order. *)
Lemma for_each_deployed (api : string -> St -> outcome unit * St) fs options
    (dir : string) (items : list string) w :
  (forall p s, fst (api p s) = Returned tt) ->
  let body := fun item =>
    let item_path := os_path_join dir item in
    if negb (isdir fs item_path) then ret tt
    else (logger INFO ("Deploying bundle: " +:+ opt_path options +:+ "/" +:+ item) ;;;
          _deploy_bundle api item_path) in
  fst (for_each items body w) = Returned tt /\
  deployed (trace (snd (for_each items body w))) =
    deployed (trace w) ++
    map (os_path_join dir) (filter (fun item => isdir fs (os_path_join dir item) = true) items).
Proof.
  intros Hapi body. revert w. induction items as [|item items IH]; intros w.
  - simpl. by rewrite app_nil_r.
  - simpl. unfold bind at 1 2.
    assert (exists w', body item w = (Returned tt, w') /\
              deployed (trace w') = deployed (trace w) ++
                (if isdir fs (os_path_join dir item) then [os_path_join dir item] else []))
      as (w' & -> & Hw').
    { unfold body. destruct (isdir fs (os_path_join dir item)); simpl.
      - unfold bind, logger, emit, _deploy_bundle, call; simpl.
        specialize (Hapi (os_path_join dir item) (ext w)).
        destruct (api (os_path_join dir item) (ext w)) as [r s']. simpl in Hapi.
        subst r. eexists. split; [reflexivity|]. simpl.
        rewrite !deployed_app. simpl. by rewrite app_nil_r.
      - eexists. split; [reflexivity|]. by rewrite app_nil_r. }
    destruct (IH w') as [IH1 IH2]. split; [exact IH1|].
    rewrite IH2, Hw'.
    destruct (isdir fs (os_path_join dir item)) eqn:Hd.
    + rewrite filter_cons_True by done. simpl. by rewrite <- app_assoc.
    + rewrite filter_cons_False by congruence. by rewrite app_nil_r.
Qed.

End DeployBundlesFacts.

Section DeployBundlesClaims.
Import DeployBundles.
Context {St : Type}.
Implicit Types (fs : filesystem) (options : task_options) (w : world St event).

(** With a deploy api that accepts every bundle, [_run_task] on a directory
    deploys the entries that are directories, in sorted order, and no other. *)
Lemma run_task_visits_directories (api : string -> St -> outcome unit * St)
    fs options w entries :
  let dir := os_path_join (getcwd fs) (opt_path options) in
  isdir fs dir = true ->
  listdir fs dir = Returned entries ->
  (forall p s, fst (api p s) = Returned tt) ->
  fst (_run_task api fs options w) = Returned tt /\
  deployed (trace (snd (_run_task api fs options w))) =
    deployed (trace w) ++
    map (os_path_join dir)
        (filter (fun item => isdir fs (os_path_join dir item) = true) (sorted entries)).
Proof.
  intros dir Hd Hl Hapi. unfold _run_task. fold dir. rewrite Hd, Hl. simpl.
  unfold bind at 1 2. unfold logger at 1 2, emit at 1 2. simpl.
  match goal with |- context [for_each _ ?b ?w0] =>
    destruct (for_each_deployed api fs options dir (sorted entries) w0 Hapi) as [H1 H2]
  end.
  split; [exact H1|]. etrans; [exact H2|]. simpl. rewrite deployed_app. simpl.
  by rewrite app_nil_r.
Qed.

(** When every entry is a directory, [_run_task] deploys the entries that
    [freeze] numbers, in the same order. *)
Lemma run_task_and_freeze_agree_on_directories
    (api : string -> St -> outcome unit * St) fs options config step w
    (entries entries' : list string) :
  let dir := os_path_join (getcwd fs) (opt_path options) in
  isdir fs dir = true ->
  listdir fs dir = Returned entries ->
  listdir fs (opt_path options) = Returned entries' ->
  entries ≡ₚ entries' ->
  Forall (fun item => isdir fs (os_path_join dir item) = true) entries ->
  (forall p s, fst (api p s) = Returned tt) ->
  deployed (trace (snd (_run_task api fs options w))) =
    deployed (trace w) ++ map (os_path_join dir) (sorted entries)
  /\ fst (freeze fs options config step w) =
     Returned (map (fun '(i, item) => freeze_step config step (opt_path options) i item)
                   (enumerate (sorted entries) 1)).
Proof.
  intros dir Hd Hl Hl' Hp Hall Hapi. split.
  - destruct (run_task_visits_directories api fs options w entries Hd Hl Hapi) as [_ ->].
    fold dir. f_equal. f_equal.
    assert (Forall (fun item => isdir fs (os_path_join dir item) = true) (sorted entries))
      as Hs by (by rewrite sorted_Permutation).
    induction Hs as [|item items Hi _ IH]; [reflexivity|].
    rewrite filter_cons_True by done. by rewrite IH.
  - rewrite (freeze_returns _ _ _ _ _ _ Hl'). cbn [fst].
    by rewrite (sorted_of_Permutation _ _ Hp).
Qed.

(** C8: when the path joined to the working directory is not a directory
    (it does not exist, or it is a file), [_run_task] logs the path, logs a
    warning and returns None: the deploy api is never called and the state
    of the collaborators is untouched. *)
Theorem run_task_skips_missing_path (api : string -> St -> outcome unit * St)
    fs options w :
  let dir := os_path_join (getcwd fs) (opt_path options) in
  isdir fs dir = false ->
  _run_task api fs options w =
    (Returned tt,
     World (ext w)
       (trace w ++ [Log INFO ("Deploying all metadata bundles in path " +:+ dir);
                    Log WARNING ("Path " +:+ dir +:+ " not found, skipping")]))
  /\ deployed (trace (snd (_run_task api fs options w))) = deployed (trace w).
Proof.
  intros dir Hd.
  assert (_run_task api fs options w =
    (Returned tt,
     World (ext w)
       (trace w ++ [Log INFO ("Deploying all metadata bundles in path " +:+ dir);
                    Log WARNING ("Path " +:+ dir +:+ " not found, skipping")]))) as E.
  { unfold _run_task. fold dir. rewrite Hd. simpl.
    unfold bind, logger, emit, ret. simpl. by rewrite <- app_assoc. }
  split; [exact E|]. rewrite E. simpl. rewrite deployed_app. simpl.
  by rewrite app_nil_r.
Qed.

(** C9: [freeze] is a function of the entries listed, of the project's
    repository metadata and of the parent step. Two runs, in whatever states
    and whatever order the system lists the same entries, return the same
    steps; step [i] (from 0) is the one of entry [i] of the sorted listing and
    its [step_num] is the parent's, a dot, and [i + 1]; the run leaves the
    trace and the collaborators' state as they were: nothing is deployed. *)
Theorem freeze_deterministic fs1 fs2 options config step w1 w2 entries1 entries2 :
  listdir fs1 (opt_path options) = Returned entries1 ->
  listdir fs2 (opt_path options) = Returned entries2 ->
  entries1 ≡ₚ entries2 ->
  exists steps,
    freeze fs1 options config step w1 = (Returned steps, w1) /\
    freeze fs2 options config step w2 = (Returned steps, w2) /\
    length steps = length entries1 /\
    Sorted String.le (sorted entries1) /\
    sorted entries1 ≡ₚ entries1 /\
    forall i item, sorted entries1 !! i = Some item ->
      exists st, steps !! i = Some st /\
        st = freeze_step config step (opt_path options) (i + 1) item /\
        step_num st = parent_step_num step +:+ "." +:+ str_of_nat (i + 1).
Proof.
  intros H1 H2 Hp. eexists. split; [apply freeze_returns; exact H1|].
  split.
  { rewrite (freeze_returns _ _ _ _ _ _ H2), (sorted_of_Permutation _ _ Hp). done. }
  split.
  { rewrite length_map, enumerate_length. apply Permutation_length, sorted_Permutation. }
  split; [apply sorted_Sorted|]. split; [apply sorted_Permutation|].
  intros i item Hi. exists (freeze_step config step (opt_path options) (i + 1) item).
  split; [|split; reflexivity].
  rewrite list_lookup_fmap, enumerate_lookup, Hi. simpl.
  by replace (S i) with (i + 1) by lia.
Qed.

End DeployBundlesClaims.

Lemma freeze_deterministic_witness :
  exists steps,
    DeployBundles.freeze Scenario.bundle_fs Scenario.bundle_options Scenario.repo
      Scenario.parent Scenario.start = (Returned steps, Scenario.start) /\
    DeployBundles.freeze Scenario.bundle_fs' Scenario.bundle_options Scenario.repo
      Scenario.parent (World 7 []) = (Returned steps, World 7 []) /\
    map DeployBundles.step_num steps = ["1.1"; "1.2"; "1.3"].
Proof.
  destruct (freeze_deterministic (St:=nat) Scenario.bundle_fs Scenario.bundle_fs'
              Scenario.bundle_options Scenario.repo Scenario.parent
              Scenario.start (World 7 []) ["b"; "README.md"; "a"] ["a"; "b"; "README.md"])
    as (steps & E1 & E2 & _).
  - reflexivity.
  - reflexivity.
  - etrans; [apply (Permutation_cons_append ["README.md"; "a"] "b")|].
    apply (Permutation_cons_append ["a"; "b"] "README.md").
  - exists steps. split; [exact E1|]. split; [exact E2|].
    clear E2. vm_compute in E1. injection E1 as <-. reflexivity.
Defined.

Lemma run_task_skips_missing_path_witness :
  DeployBundles.deployed
    (trace (snd (DeployBundles._run_task Scenario.api_ok Scenario.bundle_fs
                   Scenario.missing_options Scenario.start))) = [].
Proof.
  apply (run_task_skips_missing_path Scenario.api_ok Scenario.bundle_fs
           Scenario.missing_options Scenario.start).
  reflexivity.
Defined.

(** C2: the two operations do not enumerate the same entries. In a directory
    that holds the bundles [a] and [b] and the file [README.md], [_run_task]
    deploys [a] then [b], and [freeze] returns three steps: the file is
    step 1, and [a] and [b], the first and second bundle deployed, are
    steps 2 and 3. *)
Theorem freeze_numbers_files_run_task_skips :
  DeployBundles.deployed
    (trace (snd (DeployBundles._run_task Scenario.api_ok Scenario.bundle_fs
                   Scenario.bundle_options Scenario.start)))
  = ["/repo/unpackaged/pre/a"; "/repo/unpackaged/pre/b"]
  /\ exists steps,
       fst (DeployBundles.freeze Scenario.bundle_fs Scenario.bundle_options
              Scenario.repo Scenario.parent Scenario.start) = Returned steps /\
       map (fun st => (DeployBundles.name st, DeployBundles.step_num st)) steps
       = [("Deploy unpackaged/pre/README.md", "1.1");
          ("Deploy unpackaged/pre/a", "1.2");
          ("Deploy unpackaged/pre/b", "1.3")].
Proof.
  split; [vm_compute; reflexivity|].
  eexists. split; [vm_compute; reflexivity|]. vm_compute. reflexivity.
Qed.

(** ** UploadProfilePhoto *)

Section PhotosClaims.
Import Photos.
Context {St : Type}.
Implicit Types (sf : sf_client St) (fs : filesystem) (options : task_options)
  (w : world St event).

(** [get_default_user_id], the method the class defines, returns the last 18
    characters of the identity that the identity endpoint answers. *)
Lemma get_default_user_id_returns sf w response s' identity :
  restful sf "" "GET" None (ext w) = (Returned response, s') ->
  response !! "identity" = Some identity ->
  fst (get_default_user_id sf w) = Returned (str_last 18 identity).
Proof.
  intros Hr Hi. unfold get_default_user_id, bind, call, lift, getitem.
  rewrite Hr, Hi. reflexivity.
Qed.

(** C4: the message of the wrapped error is not the joined messages.
    [join_errors] returns None whatever the platform error holds, so
    [_raise_cumulusci_exception] raises [CumulusCIException(None)]; on a
    rejected photo call with the messages [bad photo] and [try again] the
    task raises it, where the joined text is [bad photo; try again]. *)
Theorem raised_message_drops_joined_text (content : list (gmap string string)) w :
  _raise_cumulusci_exception (A:=unit) content w = (Raised (CumulusCIException None), w)
  /\ join_errors content <> Some (Spec.joined_messages content)
  /\ fst (uploadPhoto (Scenario.org [Scenario.grace] false) Scenario.photo_fs
            (Scenario.photo_options None) "005A" Scenario.org_start)
     = Raised (CumulusCIException None)
  /\ Spec.joined_messages Scenario.rejection = "bad photo; try again".
Proof.
  split; [reflexivity|]. split; [discriminate|].
  split; vm_compute; reflexivity.
Qed.

(** C5: with no [where] option (or an empty one) the task does not reach
    the identity endpoint. [_run_task] looks up [_get_default_user_id] on the
    task, the class defines [get_default_user_id] only, and when the base
    class has no attribute of that name the run ends with [AttributeError]
    before any platform call. *)
Theorem run_task_without_where_raises sf fs options w :
  where_ options = None \/ where_ options = Some "" ->
  _run_task sf fs options None w = (Raised (AttributeError "_get_default_user_id"), w).
Proof.
  intros [H|H]; unfold _run_task, resolve_user_id, bind; rewrite H; reflexivity.
Qed.

(** C3: when the photo path does not exist, the upload raises
    [CumulusCIException] with the message [No photo found at path: ...] and
    leaves the trace as it was: no call reaches the platform client. In
    [_run_task] the upload follows the resolution of the user, so the calls
    of a run are those of the resolution and no other. *)
Theorem uploadPhoto_missing_photo sf fs options inherited user_id w :
  exists_ fs (path_str (photo options)) = false ->
  let err := CumulusCIException
               (Some ("No photo found at path: " +:+ path_str (photo options))) in
  uploadPhoto sf fs options user_id w = (Raised err, w)
  /\ _run_task sf fs options inherited w =
       match resolve_user_id sf options inherited w with
       | (Returned _, w') => (Raised err, w')
       | (Raised e, w') => (Raised e, w')
       end.
Proof.
  intros He err.
  assert (forall u w0, uploadPhoto sf fs options u w0 = (Raised err, w0)) as E.
  { intros u w0. unfold uploadPhoto, _insert_content_document, bind.
    rewrite He. reflexivity. }
  split; [apply E|]. unfold _run_task, bind.
  destruct (resolve_user_id sf options inherited w) as [[u|e] w']; [apply E|done].
Qed.

End PhotosClaims.

Lemma run_task_without_where_raises_witness :
  Photos._run_task (Scenario.org [Scenario.grace] true) Scenario.photo_fs
    (Scenario.photo_options None) None Scenario.org_start
  = (Raised (AttributeError "_get_default_user_id"), Scenario.org_start).
Proof.
  apply (run_task_without_where_raises (Scenario.org [Scenario.grace] true)
           Scenario.photo_fs (Scenario.photo_options None) Scenario.org_start).
  left. reflexivity.
Defined.

Lemma uploadPhoto_missing_photo_witness :
  Photos.uploadPhoto (Scenario.org [Scenario.grace] true) Scenario.photo_fs
    (Scenario.no_photo_options (Some "Alias = 'grace'")) "005A" Scenario.org_start
  = (Raised (CumulusCIException (Some "No photo found at path: datasets/missing.png")),
     Scenario.org_start).
Proof.
  apply (uploadPhoto_missing_photo (Scenario.org [Scenario.grace] true)
           Scenario.photo_fs (Scenario.no_photo_options (Some "Alias = 'grace'"))
           None "005A" Scenario.org_start).
  reflexivity.
Defined.

(** ** Strings *)

Lemma string_app_assoc (a b c : string) : (a +:+ b) +:+ c = a +:+ b +:+ c.
Proof.
  induction a as [|x a IH]; [reflexivity|].
  change (String x ((a +:+ b) +:+ c) = String x (a +:+ b +:+ c)). by rewrite IH.
Qed.

Lemma string_app_nil_r (a : string) : a +:+ "" = a.
Proof.
  induction a as [|x a IH]; [reflexivity|].
  change (String x (a +:+ "") = String x a). by rewrite IH.
Qed.

Lemma join_contains (sep : string) (l : list string) (u : string) :
  u ∈ l -> Spec.contains (join sep l) u.
Proof.
  induction l as [|x l IH]; intros Hu; [by apply elem_of_nil in Hu|].
  apply elem_of_cons in Hu as [->|Hu].
  - destruct l as [|y l].
    + exists "", "". change (x = x +:+ ""). by rewrite string_app_nil_r.
    + exists "", (sep +:+ join sep (y :: l)). reflexivity.
  - destruct (IH Hu) as (pre & post & E). destruct l as [|y l].
    + by apply elem_of_nil in Hu.
    + exists (x +:+ sep +:+ pre), post.
      change (join sep (x :: y :: l)) with (x +:+ sep +:+ join sep (y :: l)).
      rewrite E. by rewrite !string_app_assoc.
Qed.

Lemma opt_space_match (s : string) :
  re_match_start [ROpt " "] s =
  Some match s with String " " rest => rest | rest => rest end.
Proof.
  destruct s as [|c rest]; [reflexivity|].
  destruct c as [[] [] [] [] [] [] [] []]; reflexivity.
Qed.

Lemma lit_match (c : ascii) (pat : list re_item) (c' : ascii) (s : string) :
  re_match_start (RLit c :: pat) (String c' s) =
  if eq_ignorecase c c' then re_match_start pat s else None.
Proof. reflexivity. Qed.

(** The substitution of the pattern [^WHERE ?] is the removal of one leading
    [WHERE] token and of the space after it. *)
Lemma re_sub_where (w : string) :
  re_sub_start Photos.where_prefix "" w = Spec.strip_leading_where w.
Proof.
  unfold re_sub_start, Spec.strip_leading_where, Photos.where_prefix.
  destruct w as [|c1 [|c2 [|c3 [|c4 [|c5 rest]]]]];
    try (simpl; repeat (destruct (eq_ignorecase _ _)); try reflexivity;
         rewrite bool_decide_eq_false_2 by discriminate; reflexivity).
  cbn [string_take string_drop Spec.string_lower].
  rewrite !lit_match, opt_space_match.
  unfold eq_ignorecase.
  change (ascii_lower "W") with "w"%char. change (ascii_lower "H") with "h"%char.
  change (ascii_lower "E") with "e"%char. change (ascii_lower "R") with "r"%char.
  repeat case_bool_decide; simplify_eq; try reflexivity; try congruence.
  destruct rest as [|c rest]; [reflexivity|].
  destruct c as [[] [] [] [] [] [] [] []]; reflexivity.
Qed.

(** ** Resolution of the user by query *)

Section UserQuery.
Import Photos.
Context {St : Type}.
Implicit Types (sf : sf_client St) (options : task_options) (w : world St event).

(** The loop that reads the identifiers makes no call: it returns them all,
    or raises [KeyError] on a row with no [Id]. *)
Lemma collect_ids_run (records : list row) (user_ids : list string) w :
  collect_ids records user_ids w =
  (match mapM (fun record : row => record !! "Id") records with
   | Some ids => Returned (user_ids ++ ids)
   | None => Raised (KeyError "Id")
   end, w).
Proof.
  revert user_ids. induction records as [|record records IH]; intros user_ids.
  - simpl. unfold ret. by rewrite app_nil_r.
  - cbn [collect_ids mapM]. unfold bind, lift, getitem.
    destruct (record !! "Id") as [i|] eqn:Hi; simpl; [|reflexivity].
    rewrite IH. destruct (mapM _ records); simpl; [|reflexivity].
    by rewrite <- app_assoc.
Qed.

(** A run of [_get_user_id_by_query], by the answer of the platform. *)
Lemma get_user_id_by_query_run sf (where_ : string) w :
  let q := user_query where_ in
  let r := fst (query_all sf q (ext w)) in
  let w1 := World (snd (query_all sf q (ext w)))
                  (trace w ++ [Log INFO ("Querying User: " +:+ q); QueryAll q r]) in
  _get_user_id_by_query sf where_ w =
  match r with
  | Raised (SalesforceMalformedRequest content) =>
      (Raised (CumulusCIException (join_errors content)), w1)
  | Raised e => (Raised e, w1)
  | Returned records =>
      match mapM (fun record : row => record !! "Id") records with
      | None => (Raised (KeyError "Id"), w1)
      | Some [] => (Raised (CumulusCIException (Some "No Users found.")), w1)
      | Some [user_id] =>
          (Returned user_id,
           World (ext w1)
                 (trace w1 ++
                  [Log INFO ("Uploading profile photo for the User with ID " +:+ user_id)]))
      | Some user_ids =>
          (Raised (CumulusCIException (Some (
             "More than one User found (" +:+ str_of_nat (length user_ids) +:+ "): "
             +:+ join ", " user_ids))), w1)
      end
  end.
Proof.
  intros q r w1. unfold _get_user_id_by_query. fold q.
  unfold bind at 1. unfold logger, emit. cbn [fst snd].
  unfold bind at 1. unfold try_except, bind at 1, call. cbn [ext trace].
  subst r w1. destruct (query_all sf q (ext w)) as [[records|e] s'] eqn:Hq; cbn [fst snd].
  - rewrite collect_ids_run. rewrite <- app_assoc. cbn [app].
    destruct (mapM _ records) as [[|u [|u' ids]]|]; try reflexivity.
  - rewrite <- app_assoc. cbn [app]. destruct e; reflexivity.
Qed.

End UserQuery.

Section UserQueryClaims.
Import Photos.
Context {St : Type}.
Implicit Types (sf : sf_client St) (options : task_options) (w : world St event).

(** C6: when the platform answers the user query with rows whose
    identifiers are [user_ids]: with no row the resolution raises
    [CumulusCIException] with [No Users found.]; with one row it returns that
    identifier; with more it raises [CumulusCIException] with a message that
    contains every identifier of [user_ids]. *)
Theorem get_user_id_by_query_rows sf (where_ : string) w
    (records : list row) (user_ids : list string) :
  fst (query_all sf (user_query where_) (ext w)) = Returned records ->
  mapM (fun record : row => record !! "Id") records = Some user_ids ->
  match user_ids with
  | [] => fst (_get_user_id_by_query sf where_ w)
          = Raised (CumulusCIException (Some "No Users found."))
  | [user_id] => fst (_get_user_id_by_query sf where_ w) = Returned user_id
  | _ => exists msg,
           fst (_get_user_id_by_query sf where_ w)
           = Raised (CumulusCIException (Some msg)) /\
           forall user_id, user_id ∈ user_ids -> Spec.contains msg user_id
  end.
Proof.
  intros Hq Hids. rewrite get_user_id_by_query_run. rewrite Hq, Hids.
  destruct user_ids as [|u [|u' ids]]; try reflexivity.
  eexists. split; [reflexivity|]. intros user_id Hin.
  destruct (join_contains ", " (u :: u' :: ids) user_id Hin) as (pre & post & E).
  exists ("More than one User found (" +:+ str_of_nat (length (u :: u' :: ids))
          +:+ "): " +:+ pre), post.
  rewrite E. by rewrite !string_app_assoc.
Qed.

(** C10: for a [where] option [wh] that is not empty, the user is resolved
    by [_get_user_id_by_query], which logs and then sends to the platform, by
    [query_all], the query [SELECT Id FROM User WHERE ] followed by [wh]
    without one leading [WHERE] token and the space after it. The trace holds
    that call with the answer the platform gave, the state at the end is the
    one the platform is left in by that call, and no other call is made: the
    schema is never described, so nothing of [wh] is checked before it is
    sent. *)
Theorem where_option_is_sent_as_is sf options
    (inherited : option (M St event string)) (wh : string) w :
  where_ options = Some wh ->
  wh <> "" ->
  let q := "SELECT Id FROM User WHERE " +:+ Spec.strip_leading_where wh in
  resolve_user_id sf options inherited w = _get_user_id_by_query sf wh w /\
  exists rest,
    snd (_get_user_id_by_query sf wh w)
    = World (snd (query_all sf q (ext w)))
            (trace w ++ [Log INFO ("Querying User: " +:+ q);
                         QueryAll q (fst (query_all sf q (ext w)))] ++ rest) /\
    platform_calls rest = [].
Proof.
  intros Hw Hne q. split.
  { unfold resolve_user_id. rewrite Hw. by rewrite bool_decide_eq_false_2. }
  rewrite get_user_id_by_query_run. unfold user_query. rewrite re_sub_where. fold q.
  destruct (fst (query_all sf q (ext w))) as [records|e].
  - destruct (mapM _ records) as [[|u [|u' ids]]|]; cbn [snd ext trace].
    + exists []. by rewrite app_nil_r.
    + eexists. rewrite <- app_assoc. split; reflexivity.
    + exists []. by rewrite app_nil_r.
    + exists []. by rewrite app_nil_r.
  - exists []. destruct e; cbn [snd]; by rewrite app_nil_r.
Qed.

End UserQueryClaims.

Lemma get_user_id_by_query_rows_witness :
  exists msg,
    fst (Photos._get_user_id_by_query
           (Scenario.org [Scenario.grace; Scenario.grace'] true)
           "Alias = 'grace'" Scenario.org_start)
    = Raised (CumulusCIException (Some msg)) /\
    forall user_id, user_id ∈ ["005A"; "005B"] -> Spec.contains msg user_id.
Proof.
  apply (get_user_id_by_query_rows
           (Scenario.org [Scenario.grace; Scenario.grace'] true)
           "Alias = 'grace'" Scenario.org_start
           [Scenario.grace; Scenario.grace'] ["005A"; "005B"]).
  - reflexivity.
  - vm_compute. reflexivity.
Defined.

Lemma where_option_is_sent_as_is_witness :
  exists rest,
    snd (Photos._get_user_id_by_query (Cases.counting_org [Scenario.grace] true)
           "where Alias = 'grace'" (World 0%N []))
    = World 1%N
        ([Photos.Log INFO "Querying User: SELECT Id FROM User WHERE Alias = 'grace'";
          Photos.QueryAll "SELECT Id FROM User WHERE Alias = 'grace'"
            (Returned [Scenario.grace])] ++ rest) /\
    Photos.platform_calls rest = [].
Proof.
  apply (where_option_is_sent_as_is (Cases.counting_org [Scenario.grace] true)
           (Scenario.photo_options (Some "where Alias = 'grace'")) None
           "where Alias = 'grace'" (World 0%N [])).
  - reflexivity.
  - discriminate.
Defined.

(** ** The query built from filters *)

Section GetQuery.
Import Photos.
Context {St : Type}.
Implicit Types (sf : sf_client St) (w : world St event) (fields : list user_field).

(** The dictionary of [_get_user_fields] finds the last field of that name. *)
Lemma user_fields_lookup fields (m0 : gmap string user_field) (name : string) :
  fold_left (fun (user_fields : gmap string user_field) field =>
               <[field_name field := field]> user_fields) fields m0 !! name =
  match Spec.schema_field fields name with
  | Some f => Some f
  | None => m0 !! name
  end.
Proof.
  unfold Spec.schema_field. revert m0.
  induction fields as [|f fields IH]; intros m0; [reflexivity|].
  cbn [fold_left]. rewrite IH.
  destruct (decide (field_name f = name)) as [E|E].
  - rewrite filter_cons_True by done. rewrite last_cons.
    destruct (last (filter _ fields)); [reflexivity|].
    rewrite <- E. apply lookup_insert_eq.
  - rewrite filter_cons_False by done.
    destruct (last (filter _ fields)); [reflexivity|].
    by apply lookup_insert_ne.
Qed.

Lemma user_fields_of_lookup fields name :
  user_fields_of fields !! name = Spec.schema_field fields name.
Proof.
  unfold user_fields_of. rewrite user_fields_lookup.
  destruct (Spec.schema_field fields name); [reflexivity|apply lookup_empty].
Qed.

Lemma get_query_loop_ok fields (items : list (string * pyvalue)) (acc : list string) w :
  Forall (fun item => Spec.can_filter fields (fst item)) items ->
  _get_query_loop (user_fields_of fields) items acc w =
  (Returned (acc ++ map (Spec.render_filter fields) items), w).
Proof.
  revert acc. induction items as [|[name value] items IH]; intros acc Hall.
  - simpl. unfold ret. by rewrite app_nil_r.
  - apply Forall_cons in Hall as [(f & Hf & Hfilt) Hall]. cbn [fst] in Hf.
    cbn [_get_query_loop map]. rewrite user_fields_of_lookup.
    unfold Spec.render_filter at 1, Spec.is_string_field, Spec.render_term.
    cbn [fst snd]. rewrite Hf, Hfilt. cbn [negb].
    unfold Spec.is_string_typed, string_soap_types.
    destruct (bool_decide _); rewrite IH by done; by rewrite <- app_assoc.
Qed.

Lemma get_query_loop_bad fields (items : list (string * pyvalue)) (acc : list string) w :
  Exists (fun item => ~ Spec.can_filter fields (fst item)) items ->
  exists name, name ∈ map fst items /\ ~ Spec.can_filter fields name /\
    _get_query_loop (user_fields_of fields) items acc w =
    (Raised (CumulusCIException (Some
       match Spec.schema_field fields name with
       | None => field_not_found name
       | Some _ => field_not_filterable name
       end)), w).
Proof.
  revert acc. induction items as [|[name value] items IH]; intros acc Hex.
  - by apply Exists_nil in Hex.
  - cbn [_get_query_loop map fst]. rewrite user_fields_of_lookup.
    destruct (Spec.schema_field fields name) as [f|] eqn:Hf.
    + destruct (filterable f) eqn:Hfilt; cbn [negb].
      * apply Exists_cons in Hex as [Hbad|Hex].
        { exfalso. apply Hbad. by exists f. }
        destruct (bool_decide _);
          (edestruct IH as (n & Hin & Hn & ->); [exact Hex|];
           exists n; split; [by apply list_elem_of_further|]; by split).
      * exists name. split; [apply list_elem_of_here|]. split.
        { intros (f' & Hf' & Hfilt'). congruence. }
        by rewrite Hf.
    + exists name. split; [apply list_elem_of_here|]. split.
      { intros (f' & Hf' & _). congruence. }
      by rewrite Hf.
Qed.

End GetQuery.

Section GetQueryClaims.
Import Photos.
Context {St : Type}.
Implicit Types (sf : sf_client St) (w : world St event) (fields : list user_field).

(** C7: with the fields that [describe] answers, when every filter names a
    field of the schema that is filterable, [_get_query] returns
    [SELECT Id FROM User WHERE ] and the terms of the filters joined by
    [ AND ], in the order of the filters, each [name = 'value'] for a field
    of a string, ID or address soap type and [name = value] for a field of
    any other type; when a filter names no field of the schema (the names
    are compared as they are) or a field that is not filterable,
    [_get_query] raises [CumulusCIException] about such a name and returns
    no query. *)
Theorem get_query_renders_filters sf (filters : list (string * pyvalue)) w fields :
  fst (User_describe sf (ext w)) = Returned fields ->
  (Forall (fun item => Spec.can_filter fields (fst item)) filters ->
   fst (_get_query sf filters w) =
   Returned ("SELECT Id FROM User WHERE " +:+
             join " AND " (map (Spec.render_filter fields) filters)))
  /\
  (Exists (fun item => ~ Spec.can_filter fields (fst item)) filters ->
   exists name, name ∈ map fst filters /\ ~ Spec.can_filter fields name /\
     fst (_get_query sf filters w) =
     Raised (CumulusCIException (Some
       match Spec.schema_field fields name with
       | None => field_not_found name
       | Some _ => field_not_filterable name
       end))).
Proof.
  intros Hd.
  assert (forall k : gmap string user_field -> M St event string,
            fst (bind (_get_user_fields sf) k w) =
                    fst (k (user_fields_of fields)
                           (World (snd (User_describe sf (ext w)))
                                  (trace w ++ [Describe (Returned fields)])))) as E.
  { intros k. unfold bind, _get_user_fields, bind, call, ret.
    destruct (User_describe sf (ext w)) as [r s']. cbn [fst] in Hd. subst r.
    reflexivity. }
  split.
  - intros Hall. unfold _get_query. rewrite E. unfold bind.
    rewrite (get_query_loop_ok fields filters [] _ Hall). reflexivity.
  - intros Hex. unfold _get_query.
    destruct (get_query_loop_bad fields filters []
                (World (snd (User_describe sf (ext w)))
                       (trace w ++ [Describe (Returned fields)])) Hex)
      as (name & Hin & Hbad & Hrun).
    exists name. split; [exact Hin|]. split; [exact Hbad|].
    rewrite E. unfold bind. rewrite Hrun. reflexivity.
Qed.

End GetQueryClaims.

Lemma get_query_renders_filters_witness :
  fst (Photos._get_query (Scenario.org [] true)
         [("Alias", VStr "grace"); ("IsActive", VStr "true")] Scenario.org_start)
  = Returned "SELECT Id FROM User WHERE Alias = 'grace' AND IsActive = true"
  /\ exists name,
       name ∈ ["Alias"; "alias"] /\ ~ Spec.can_filter Scenario.user_schema name /\
       fst (Photos._get_query (Scenario.org [] true)
              [("Alias", VStr "grace"); ("alias", VStr "grace")] Scenario.org_start)
       = Raised (CumulusCIException (Some
           match Spec.schema_field Scenario.user_schema name with
           | None => Photos.field_not_found name
           | Some _ => Photos.field_not_filterable name
           end)).
Proof.
  split.
  - apply (get_query_renders_filters (Scenario.org [] true)
             [("Alias", VStr "grace"); ("IsActive", VStr "true")]
             Scenario.org_start Scenario.user_schema); [reflexivity|].
    repeat constructor; eexists; split; vm_compute; reflexivity.
  - apply (get_query_renders_filters (Scenario.org [] true)
             [("Alias", VStr "grace"); ("alias", VStr "grace")]
             Scenario.org_start Scenario.user_schema); [reflexivity|].
    apply Exists_cons_tl, Exists_cons_hd. intros (f & Hf & _).
    vm_compute in Hf. discriminate Hf.
Defined.

(** ** The upload and its cleanup *)

Section UploadClaims.
Import Photos.
Context {St : Type}.
Implicit Types (sf : sf_client St) (fs : filesystem) (options : task_options)
  (w : world St event).

(** [_insert_content_document] either returns the document of the content
    version it created, after a log record, the creation, the query for the
    document and a second log record, each call answered by the platform from
    the state the one before left, or raises without any generic REST call
    made. *)
Lemma insert_content_document_run sf fs options w :
  (exists (doc : string) (res : create_result) (record : row) (records : list row)
          (bytes : string),
     let fields := {| PathOnClient := path_name (photo options);
                      Title := path_stem (photo options);
                      VersionData := b64encode bytes |} in
     let soql := "SELECT Id, ContentDocumentId FROM ContentVersion WHERE Id = '"
                 +:+ id res +:+ "'" in
     let s1 := snd (ContentVersion_create sf fields (ext w)) in
     read_bytes fs (path_str (photo options)) = Returned bytes /\
     fst (ContentVersion_create sf fields (ext w)) = Returned res /\
     success res = true /\
     fst (query sf soql s1) = Returned (record :: records) /\
     record !! "ContentDocumentId" = Some doc /\
     _insert_content_document sf fs options w =
       (Returned doc,
        World (snd (query sf soql s1)) (trace w ++
          [Log INFO ("Setting user photo to " +:+ path_str (photo options));
           Create fields (Returned res);
           Query soql (Returned (record :: records));
           Log INFO ("Uploaded profile photo ContentDocument " +:+ doc)])))
  \/
  (exists (e : exn) (w' : world St event) (evs : list event),
     _insert_content_document sf fs options w = (Raised e, w') /\
     trace w' = trace w ++ evs /\
     Forall (fun ev => is_restful ev = false) evs).
Proof.
  unfold _insert_content_document, bind, call, logger, emit, lift, ret, raise.
  destruct (exists_ fs (path_str (photo options))); cbn [negb].
  2:{ right. do 2 eexists. exists []. split; [reflexivity|]. by rewrite app_nil_r. }
  cbn [fst snd ext trace].
  destruct (read_bytes fs (path_str (photo options))) as [bytes|e] eqn:Hb.
  2:{ right. do 3 eexists. split; [reflexivity|]. split; [reflexivity|].
      repeat constructor. }
  cbn [ext trace].
  destruct (ContentVersion_create sf _ (ext w)) as [[res|e] s2] eqn:Hc.
  2:{ right. do 3 eexists. split; [reflexivity|]. cbn [trace].
      rewrite <- app_assoc. split; [reflexivity|]. repeat constructor. }
  destruct (success res) eqn:Hs; cbn [negb].
  2:{ right. do 3 eexists. split; [reflexivity|]. cbn [trace].
      rewrite <- app_assoc. split; [reflexivity|]. repeat constructor. }
  cbn [ext trace].
  destruct (query sf _ s2) as [[[|record records]|e] s3] eqn:Hq.
  1,3: right; do 3 eexists; (split; [reflexivity|]); cbn [trace];
       rewrite <- !app_assoc; (split; [reflexivity|]); repeat constructor.
  unfold getitem. destruct (record !! "ContentDocumentId") as [doc|] eqn:Hdoc.
  2:{ right. do 3 eexists. split; [reflexivity|]. cbn [trace].
      rewrite <- !app_assoc. split; [reflexivity|]. repeat constructor. }
  left. exists doc, res, record, records, bytes. cbn zeta.
  rewrite Hc. cbn [fst snd]. rewrite Hq. cbn [fst snd ext trace].
  repeat (split; [done|]). by rewrite <- !app_assoc.
Qed.

(** The rest of the upload once the document is there: the call that sets
    the photo and, on a platform rejection, the cleanup. *)
Lemma uploadPhoto_after_insert sf fs options (user_id : string) w
    (doc : string) (w1 : world St event) :
  _insert_content_document sf fs options w = (Returned doc, w1) ->
  let ep := photo_endpoint user_id in
  let body := Some (photo_body doc) in
  let r := fst (restful sf ep "POST" body (ext w1)) in
  let s2 := snd (restful sf ep "POST" body (ext w1)) in
  let tr2 := trace w1 ++ [Restful ep "POST" body r] in
  uploadPhoto sf fs options user_id w =
  match r with
  | Returned _ => (Returned tt, World s2 tr2)
  | Raised (SalesforceMalformedRequest content) =>
      let rd := fst (ContentDocument_delete sf doc s2) in
      (match rd with
       | Returned _ => Raised (CumulusCIException (join_errors content))
       | Raised e => Raised e
       end,
       World (snd (ContentDocument_delete sf doc s2))
         (tr2 ++
          [Log ERROR
             "An error occured setting the ContentDocument as the users's profile photo.";
           Log ERROR ("Deleting ContentDocument " +:+ doc);
           Delete doc rd]))
  | Raised e => (Raised e, World s2 tr2)
  end.
Proof.
  intros Hrun ep body r s2 tr2. subst r s2 tr2.
  unfold uploadPhoto, bind at 1. rewrite Hrun.
  unfold _delete_content_document, _raise_cumulusci_exception.
  unfold try_except, bind, call, logger, emit, ret, raise. cbn [ext trace].
  fold ep body.
  destruct (restful sf ep "POST" body (ext w1)) as [[resp|e] s2]; cbn [fst snd].
  - reflexivity.
  - destruct e; try reflexivity. cbn [ext trace].
    destruct (ContentDocument_delete sf doc s2) as [[[]|e] s3]; cbn [fst snd];
      rewrite <- !app_assoc; reflexivity.
Qed.

(** C1: in a run of the upload, let [new] be the events it adds to the
    trace and let the call that sets the photo be in it, answered by [r].
    Then the run read the photo, created a content version, found its
    document [doc] and made that call for [doc], each call answered by the
    platform from the state the call before left. If [r] is a platform
    rejection, the run then asks the platform to delete [doc]: the trace ends
    with two error records and that one deletion, with the answer the
    platform gave, the only deletion of the run; the state at the end is the
    one the platform is left in by the deletion; and the run raises
    [CumulusCIException] built from the rejection (or what the deletion
    raised). If the call returned, or raised anything else, the trace ends
    with the call, holds no deletion, and the state is the one the call
    left. *)
Theorem uploadPhoto_cleanup sf fs options (user_id : string) w
    (new : list event) (ep m : string) (d : option string)
    (r : outcome (gmap string string)) :
  trace (snd (uploadPhoto sf fs options user_id w)) = trace w ++ new ->
  Restful ep m d r ∈ new ->
  exists (doc bytes : string) (res : create_result)
         (record : row) (records : list row),
    let fields := {| PathOnClient := path_name (photo options);
                     Title := path_stem (photo options);
                     VersionData := b64encode bytes |} in
    let soql := "SELECT Id, ContentDocumentId FROM ContentVersion WHERE Id = '"
                +:+ id res +:+ "'" in
    let s1 := snd (ContentVersion_create sf fields (ext w)) in
    let s2 := snd (query sf soql s1) in
    let s3 := snd (restful sf ep m d s2) in
    read_bytes fs (path_str (photo options)) = Returned bytes /\
    fst (ContentVersion_create sf fields (ext w)) = Returned res /\
    success res = true /\
    fst (query sf soql s1) = Returned (record :: records) /\
    record !! "ContentDocumentId" = Some doc /\
    ep = photo_endpoint user_id /\ m = "POST" /\ d = Some (photo_body doc) /\
    r = fst (restful sf ep m d s2) /\
    let uploaded :=
      [Log INFO ("Setting user photo to " +:+ path_str (photo options));
       Create fields (Returned res);
       Query soql (Returned (record :: records));
       Log INFO ("Uploaded profile photo ContentDocument " +:+ doc);
       Restful ep m d r] in
    match r with
    | Raised (SalesforceMalformedRequest content) =>
        let rd := fst (ContentDocument_delete sf doc s3) in
        new = uploaded ++
          [Log ERROR
             "An error occured setting the ContentDocument as the users's profile photo.";
           Log ERROR ("Deleting ContentDocument " +:+ doc);
           Delete doc rd] /\
        deletes new = [doc] /\
        uploadPhoto sf fs options user_id w =
          (match rd with
           | Returned _ => Raised (CumulusCIException (join_errors content))
           | Raised e => Raised e
           end,
           World (snd (ContentDocument_delete sf doc s3)) (trace w ++ new))
    | Raised e =>
        new = uploaded /\ deletes new = [] /\
        uploadPhoto sf fs options user_id w = (Raised e, World s3 (trace w ++ new))
    | Returned _ =>
        new = uploaded /\ deletes new = [] /\
        uploadPhoto sf fs options user_id w = (Returned tt, World s3 (trace w ++ new))
    end.
Proof.
  intros Htr Hin.
  destruct (insert_content_document_run sf fs options w)
    as [(doc & res & record & records & bytes & Hb & Hc & Hs & Hq & Hdoc & Hrun)
       |(e & w' & evs & Hrun & Hevs & Hno)].
  2:{ exfalso. revert Htr. unfold uploadPhoto, bind. rewrite Hrun. cbn [snd].
      rewrite Hevs. intros Htr. apply app_inv_head in Htr. subst new.
      rewrite Forall_forall in Hno. by specialize (Hno _ Hin). }
  pose proof (uploadPhoto_after_insert _ _ _ user_id _ _ _ Hrun) as Hup.
  cbn [ext trace] in Hup. cbn zeta in Hup.
  set (fields := {| PathOnClient := path_name (photo options);
                    Title := path_stem (photo options);
                    VersionData := b64encode bytes |}) in *.
  set (soql := "SELECT Id, ContentDocumentId FROM ContentVersion WHERE Id = '"
               +:+ id res +:+ "'") in *.
  set (s2 := snd (query sf soql (snd (ContentVersion_create sf fields (ext w))))) in *.
  exists doc, bytes, res, record, records. cbn zeta. fold fields soql s2.
  revert Htr. rewrite Hup. clear Hup.
  destruct (restful sf (photo_endpoint user_id) "POST" (Some (photo_body doc)) s2)
    as [r0 s3] eqn:Hr.
  cbn [fst snd].
  assert (forall tail,
            Restful ep m d r ∈
              [Log INFO ("Setting user photo to " +:+ path_str (photo options));
               Create fields (Returned res);
               Query soql (Returned (record :: records));
               Log INFO ("Uploaded profile photo ContentDocument " +:+ doc);
               Restful (photo_endpoint user_id) "POST" (Some (photo_body doc)) r0]
              ++ tail ->
            Forall (fun ev => is_restful ev = false) tail ->
            ep = photo_endpoint user_id /\ m = "POST" /\
            d = Some (photo_body doc) /\ r = r0) as Hlink.
  { intros tail Hin' Htail. apply elem_of_app in Hin' as [Hin'|Hin'].
    - repeat (apply elem_of_cons in Hin' as [Hin'|Hin']; [try discriminate Hin'|]);
        [|by apply elem_of_nil in Hin']. by injection Hin' as -> -> -> ->.
    - rewrite Forall_forall in Htail. by specialize (Htail _ Hin'). }
  destruct r0 as [resp|e]; [|destruct e].
  all: cbn [snd trace]; rewrite <- ?app_assoc; cbn [app]; intros Htr;
    apply app_inv_head in Htr; subst new.
  3:{ destruct (Hlink [Log ERROR
         "An error occured setting the ContentDocument as the users's profile photo.";
         Log ERROR ("Deleting ContentDocument " +:+ doc);
         Delete doc (fst (ContentDocument_delete sf doc s3))])
        as (-> & -> & -> & ->); [exact Hin|repeat constructor|].
      rewrite Hr. cbn [fst snd]. repeat (split; [done|]). rewrite <- ?app_assoc. reflexivity. }
  all: destruct (Hlink []) as (-> & -> & -> & ->);
    [by rewrite app_nil_r|constructor|];
    rewrite Hr; cbn [fst snd]; repeat (split; [done|]); rewrite <- ?app_assoc; reflexivity.
Qed.

End UploadClaims.

Lemma uploadPhoto_cleanup_witness :
  exists doc,
    Photos.deletes
      (trace (snd (Photos.uploadPhoto (Cases.counting_org [Scenario.grace] false)
                     Scenario.photo_fs (Scenario.photo_options None) "005A"
                     (World 0%N [])))) = [doc] /\
    ext (snd (Photos.uploadPhoto (Cases.counting_org [Scenario.grace] false)
                Scenario.photo_fs (Scenario.photo_options None) "005A"
                (World 0%N []))) = 11110%N.
Proof.
  destruct (uploadPhoto_cleanup (Cases.counting_org [Scenario.grace] false)
              Scenario.photo_fs (Scenario.photo_options None) "005A"
              (World 0%N [])
              (trace (snd (Photos.uploadPhoto (Cases.counting_org [Scenario.grace] false)
                             Scenario.photo_fs (Scenario.photo_options None) "005A"
                             (World 0%N []))))
              (Photos.photo_endpoint "005A") "POST"
              (Some (Photos.photo_body "069D"))
              (Raised (SalesforceMalformedRequest Scenario.rejection)))
    as (doc & bytes & res & record & records & _ & Hc & _ & _ & _ & _ & _ & _ & _
        & _ & Hdel & Hrun).
  - reflexivity.
  - vm_compute. do 4 apply list_elem_of_further. apply list_elem_of_here.
  - exists doc. split; [exact Hdel|]. rewrite Hrun. reflexivity.
Defined.

(** * Further properties of the two tasks *)

(** ** Runs that agree step by step *)

Lemma bind_ext {St Ev A B} (m : M St Ev A) (k1 k2 : A -> M St Ev B) (w : world St Ev) :
  (forall a w', k1 a w' = k2 a w') -> bind m k1 w = bind m k2 w.
Proof. intros Hk. unfold bind. destruct (m w) as [[a|e] w']; [apply Hk|reflexivity]. Qed.

Lemma for_each_ext {St Ev A} (l : list A) (f g : A -> M St Ev unit) (w : world St Ev) :
  (forall x w', f x w' = g x w') -> for_each l f w = for_each l g w.
Proof.
  intros Hfg. revert w. induction l as [|x l IH]; intros w; [reflexivity|].
  cbn [for_each]. unfold bind. rewrite Hfg.
  destruct (g x w) as [[[]|e] w']; [apply IH|reflexivity].
Qed.

(** ** The loop of DeployBundles._run_task *)

Section DeployLoop.
Import DeployBundles Parts.
Context {St : Type}.
Implicit Types (w : world St event).
Variable api : string -> St -> outcome unit * St.
Variable fs : filesystem.
Variable options : task_options.
Variable dir : string.

(** [_run_task] on a directory is the log record and the loop. *)
Lemma run_task_is_loop w (entries : list string) :
  isdir fs (os_path_join (getcwd fs) (opt_path options)) = true ->
  listdir fs (os_path_join (getcwd fs) (opt_path options)) = Returned entries ->
  _run_task api fs options w =
  for_each (sorted entries)
    (entry_step api fs options (os_path_join (getcwd fs) (opt_path options)))
    (World (ext w)
       (trace w ++ [Log INFO ("Deploying all metadata bundles in path " +:+
                              os_path_join (getcwd fs) (opt_path options))])).
Proof. intros Hd Hl. unfold _run_task. rewrite Hd, Hl. reflexivity. Qed.

(** Entries that are not directories do nothing at all. *)
Lemma for_each_skips_files (items : list string) w :
  for_each items (entry_step api fs options dir) w =
  for_each (filter (fun item => isdir fs (os_path_join dir item) = true) items)
           (deploy_step api options dir) w.
Proof.
  revert w. induction items as [|item items IH]; intros w; [reflexivity|].
  destruct (isdir fs (os_path_join dir item)) eqn:Hd.
  - rewrite filter_cons_True by exact Hd. cbn [for_each].
    unfold entry_step at 1. rewrite Hd. cbn [negb]. unfold bind.
    destruct (deploy_step api options dir item w) as [[[]|e] w']; [apply IH|reflexivity].
  - rewrite filter_cons_False by congruence.
    cbn [for_each]. unfold entry_step at 1. rewrite Hd. cbn [negb].
    unfold bind, ret. apply IH.
Qed.

(** One bundle: the log record, then the call, whose answer ends the step. *)
Lemma deploy_step_run (item : string) w :
  deploy_step api options dir item w =
  (fst (api (os_path_join dir item) (ext w)),
   World (snd (api (os_path_join dir item) (ext w)))
     (trace w ++ deploy_events options dir item
                   (fst (api (os_path_join dir item) (ext w))))).
Proof.
  unfold deploy_step, deploy_events, bind, logger, emit, _deploy_bundle, call.
  cbn [ext trace].
  destruct (api (os_path_join dir item) (ext w)) as [r s']. cbn [fst snd].
  by rewrite <- app_assoc.
Qed.


Lemma deployed_accepted (bundles : list string) :
  deployed (concat (map (fun item => deploy_events options dir item (Returned tt))
                        bundles))
  = map (os_path_join dir) bundles.
Proof.
  induction bundles as [|item bundles IH]; [reflexivity|].
  cbn [map concat]. rewrite deployed_app, IH. reflexivity.
Qed.

(** The loop stops at the first call that raises: the bundles before it are
    those the api accepted, each from the state the call before left. *)
Lemma for_each_halts (pre post : list string) (b : string) (e : exn) w :
  (forall i item, pre !! i = Some item ->
     fst (api (os_path_join dir item) (state_after api dir (ext w) (take i pre)))
     = Returned tt) ->
  fst (api (os_path_join dir b) (state_after api dir (ext w) pre)) = Raised e ->
  for_each (pre ++ b :: post) (deploy_step api options dir) w =
  (Raised e,
   World (snd (api (os_path_join dir b) (state_after api dir (ext w) pre)))
     (trace w ++
      concat (map (fun item => deploy_events options dir item (Returned tt)) pre) ++
      deploy_events options dir b (Raised e))).
Proof.
  revert w. induction pre as [|item pre IH]; intros w Hpre Hb.
  - cbn [app for_each]. unfold bind. rewrite deploy_step_run.
    cbn [state_after fold_left] in Hb. rewrite Hb. reflexivity.
  - cbn [app for_each]. unfold bind. rewrite deploy_step_run.
    rewrite (Hpre 0 item eq_refl : fst (api (os_path_join dir item) (ext w)) = _).
    rewrite IH.
    + cbn [ext trace map concat]. f_equal. f_equal. by rewrite <- !app_assoc.
    + intros i item' Hi. cbn [ext]. exact (Hpre (S i) item' Hi).
    + exact Hb.
Qed.

(** Whatever the api answers, what the loop deploys is among the bundles. *)
Lemma for_each_deploys_bundles (bundles : list string) w (p : string) :
  p ∈ deployed (trace (snd (for_each bundles (deploy_step api options dir) w))) ->
  p ∈ deployed (trace w) \/ exists item, item ∈ bundles /\ p = os_path_join dir item.
Proof.
  revert w. induction bundles as [|item bundles IH]; intros w Hp; [by left|].
  revert Hp. cbn [for_each]. unfold bind. rewrite deploy_step_run.
  assert (forall w0 : world St event,
            trace w0 = trace w ++ deploy_events options dir item
                         (fst (api (os_path_join dir item) (ext w))) ->
            p ∈ deployed (trace w0) ->
            p ∈ deployed (trace w) \/
            exists item0, item0 ∈ item :: bundles /\ p = os_path_join dir item0) as Hone.
  { intros w0 -> Hp. rewrite deployed_app in Hp.
    apply elem_of_app in Hp as [Hp|Hp]; [by left|]. right.
    apply list_elem_of_singleton in Hp. exists item. split; [apply list_elem_of_here|done]. }
  destruct (fst (api (os_path_join dir item) (ext w))) as [[]|e] eqn:Ha.
  - intros Hp. apply IH in Hp as [Hp|(item0 & Hin & ->)].
    + eapply Hone; [|exact Hp]. reflexivity.
    + right. exists item0. split; [by apply list_elem_of_further|done].
  - intros Hp. eapply Hone; [|exact Hp]. reflexivity.
Qed.

End DeployLoop.

Section DeployBundlesMore.
Import DeployBundles Parts.
Context {St : Type}.
Implicit Types (fs : filesystem) (options : task_options) (w : world St event).

(** X1: whatever the deploy api answers, a path that [_run_task] hands to it
    is the join of the directory and one of its listed entries, and is a
    directory: a file of the bundle directory is never deployed. *)
Theorem run_task_deploys_only_directories
    (api : string -> St -> outcome unit * St) fs options w (p : string) :
  let dir := os_path_join (getcwd fs) (opt_path options) in
  p ∈ deployed (trace (snd (_run_task api fs options w))) ->
  p ∈ deployed (trace w) \/
  exists entries item,
    listdir fs dir = Returned entries /\ item ∈ entries /\
    p = os_path_join dir item /\ isdir fs p = true.
Proof.
  intros dir. destruct (isdir fs dir) eqn:Hd.
  - destruct (listdir fs dir) as [entries|e] eqn:Hl.
    + rewrite (run_task_is_loop api fs options w entries Hd Hl). fold dir.
      rewrite for_each_skips_files. intros Hp.
      apply for_each_deploys_bundles in Hp as [Hp|(item & Hin & ->)].
      * left. revert Hp. cbn [trace]. rewrite deployed_app. cbn. by rewrite app_nil_r.
      * right. apply list_elem_of_filter in Hin as [Hdir Hin].
        exists entries, item. split; [reflexivity|]. split; [|by split].
        by rewrite sorted_Permutation in Hin.
    + unfold _run_task. fold dir. rewrite Hd, Hl. cbn [negb].
      unfold bind, logger, emit, raise. cbn [snd trace]. rewrite deployed_app.
      cbn. rewrite app_nil_r. by left.
  - unfold _run_task. fold dir. rewrite Hd. cbn [negb].
    unfold bind, logger, emit, ret. cbn [snd trace]. rewrite !deployed_app.
    cbn. rewrite !app_nil_r. by left.
Qed.

(** X2: a deployment that raises ends the run with that exception. Let
    the bundles be [pre], then [b], then [post], and let the api, whose answers
    may depend on its state, accept each bundle of [pre] from the state the
    call before left and raise [e] on [b]: the run raises [e], its trace is
    the record of the directory, the record and accepted deployment of each
    bundle of [pre], then the record and failed deployment of [b]; the state
    is the one that call left, and no bundle of [post] is handed to the
    api. *)
Theorem run_task_halts_at_first_failure
    (api : string -> St -> outcome unit * St) fs options w
    (entries pre post : list string) (b : string) (e : exn) :
  let dir := os_path_join (getcwd fs) (opt_path options) in
  isdir fs dir = true ->
  listdir fs dir = Returned entries ->
  bundles_of fs dir entries = pre ++ b :: post ->
  (forall i item, pre !! i = Some item ->
     fst (api (os_path_join dir item) (state_after api dir (ext w) (take i pre)))
     = Returned tt) ->
  fst (api (os_path_join dir b) (state_after api dir (ext w) pre)) = Raised e ->
  _run_task api fs options w =
    (Raised e,
     World (snd (api (os_path_join dir b) (state_after api dir (ext w) pre)))
       (trace w ++
        Log INFO ("Deploying all metadata bundles in path " +:+ dir) ::
        concat (map (fun item => deploy_events options dir item (Returned tt)) pre) ++
        deploy_events options dir b (Raised e))) /\
  deployed (trace (snd (_run_task api fs options w))) =
    deployed (trace w) ++ map (os_path_join dir) (pre ++ [b]).
Proof.
  intros dir Hd Hl Hb Hpre He.
  rewrite (run_task_is_loop api fs options w entries Hd Hl). fold dir.
  rewrite for_each_skips_files. fold (bundles_of fs dir entries). rewrite Hb.
  match goal with |- context [for_each _ _ ?w0] =>
    rewrite (for_each_halts api options dir pre post b e w0 Hpre He) end.
  cbn [ext trace snd].
  split; [by rewrite <- app_assoc|].
  rewrite !deployed_app, deployed_accepted, map_app. cbn. by rewrite app_nil_r.
Qed.


(** X4: a run does not depend on the order in which the system lists the
    directory: over two listings of the same entries, from the same state and
    whatever the api answers, [_run_task] hands the same bundles to the api in
    the same order and ends the same way, with the same trace and state. *)
Theorem run_task_order_independent_of_listing
    (api : string -> St -> outcome unit * St) fs1 fs2 options w
    (entries1 entries2 : list string) :
  let dir := os_path_join (getcwd fs1) (opt_path options) in
  getcwd fs2 = getcwd fs1 ->
  (forall p, isdir fs2 p = isdir fs1 p) ->
  listdir fs1 dir = Returned entries1 ->
  listdir fs2 dir = Returned entries2 ->
  entries1 ≡ₚ entries2 ->
  _run_task api fs1 options w = _run_task api fs2 options w.
Proof.
  intros dir Hcwd Hisdir Hl1 Hl2 Hp.
  unfold _run_task. rewrite Hcwd. fold dir. rewrite Hisdir, Hl1, Hl2.
  rewrite (sorted_of_Permutation _ _ Hp).
  apply bind_ext. intros [] w0. destruct (isdir fs1 dir); cbn [negb]; [|reflexivity].
  apply for_each_ext. intros item w1. by rewrite Hisdir.
Qed.

(** X5: on a path that is not a directory and cannot be listed the two
    operations differ: [_run_task] returns, [freeze], which does not test the
    path, raises what [os.listdir] raises and returns no step. *)
Theorem freeze_raises_where_run_task_skips
    (api : string -> St -> outcome unit * St) fs options config step w (e : exn) :
  isdir fs (os_path_join (getcwd fs) (opt_path options)) = false ->
  listdir fs (opt_path options) = Raised e ->
  fst (_run_task api fs options w) = Returned tt /\
  freeze fs options config step w = (Raised e, w).
Proof.
  intros Hd Hl. split.
  - unfold _run_task. rewrite Hd. reflexivity.
  - unfold freeze. rewrite Hl. reflexivity.
Qed.

End DeployBundlesMore.

Lemma run_task_deploys_only_directories_witness :
  "/repo/unpackaged/pre/b" ∈ DeployBundles.deployed (trace Scenario.start) \/
  exists entries item,
    DeployBundles.listdir Scenario.bundle_fs
      (os_path_join (DeployBundles.getcwd Scenario.bundle_fs)
                    (DeployBundles.opt_path Scenario.bundle_options)) = Returned entries /\
    item ∈ entries /\
    "/repo/unpackaged/pre/b" =
      os_path_join (os_path_join (DeployBundles.getcwd Scenario.bundle_fs)
                                 (DeployBundles.opt_path Scenario.bundle_options)) item /\
    DeployBundles.isdir Scenario.bundle_fs "/repo/unpackaged/pre/b" = true.
Proof.
  apply (run_task_deploys_only_directories Scenario.api_ok Scenario.bundle_fs
           Scenario.bundle_options Scenario.start "/repo/unpackaged/pre/b").
  vm_compute. apply list_elem_of_further, list_elem_of_here.
Defined.

Lemma run_task_halts_at_first_failure_witness :
  DeployBundles._run_task Cases.api_fails_after_first Scenario.bundle_fs
    Scenario.bundle_options Scenario.start
  = (Raised (ExternalError "deploy failed"),
     World 2
       [DeployBundles.Log INFO "Deploying all metadata bundles in path /repo/unpackaged/pre";
        DeployBundles.Log INFO "Deploying bundle: unpackaged/pre/a";
        DeployBundles.Deploy "/repo/unpackaged/pre/a" (Returned tt);
        DeployBundles.Log INFO "Deploying bundle: unpackaged/pre/b";
        DeployBundles.Deploy "/repo/unpackaged/pre/b"
          (Raised (ExternalError "deploy failed"))]) /\
  DeployBundles.deployed
    (trace (snd (DeployBundles._run_task Cases.api_fails_after_first Scenario.bundle_fs
                   Scenario.bundle_options Scenario.start)))
  = ["/repo/unpackaged/pre/a"; "/repo/unpackaged/pre/b"].
Proof.
  apply (run_task_halts_at_first_failure Cases.api_fails_after_first Scenario.bundle_fs
           Scenario.bundle_options Scenario.start
           ["b"; "README.md"; "a"] ["a"] [] "b" (ExternalError "deploy failed")).
  - reflexivity.
  - reflexivity.
  - vm_compute. reflexivity.
  - intros [|i] item Hi; [injection Hi as <-; reflexivity|discriminate Hi].
  - reflexivity.
Defined.


Lemma run_task_order_independent_of_listing_witness :
  DeployBundles._run_task Cases.api_fails_after_first Scenario.bundle_fs
    Scenario.bundle_options Scenario.start
  = DeployBundles._run_task Cases.api_fails_after_first Scenario.bundle_fs'
      Scenario.bundle_options Scenario.start.
Proof.
  apply (run_task_order_independent_of_listing Cases.api_fails_after_first
           Scenario.bundle_fs Scenario.bundle_fs' Scenario.bundle_options
           Scenario.start ["b"; "README.md"; "a"] ["a"; "b"; "README.md"]).
  - reflexivity.
  - intros p. reflexivity.
  - reflexivity.
  - reflexivity.
  - etrans; [apply (Permutation_cons_append ["README.md"; "a"] "b")|].
    apply (Permutation_cons_append ["a"; "b"] "README.md").
Defined.

Lemma freeze_raises_where_run_task_skips_witness :
  fst (DeployBundles._run_task Scenario.api_ok Cases.unlisted_fs
         Scenario.missing_options Scenario.start) = Returned tt /\
  DeployBundles.freeze Cases.unlisted_fs Scenario.missing_options Scenario.repo
    Scenario.parent Scenario.start = (Raised (OSError "unpackaged/post"), Scenario.start).
Proof.
  apply (freeze_raises_where_run_task_skips Scenario.api_ok Cases.unlisted_fs
           Scenario.missing_options Scenario.repo Scenario.parent Scenario.start
           (OSError "unpackaged/post")); reflexivity.
Defined.

(** ** The steps of DeployBundles.freeze *)

Lemma basename_from_no_sep (cur p : string) :
  "/"%char ∉ list_ascii_of_string p -> basename_from cur p = cur +:+ p.
Proof.
  revert cur. induction p as [|c p IH]; intros cur Hno.
  - cbn. by rewrite string_app_nil_r.
  - cbn [basename_from]. cbn [list_ascii_of_string] in Hno.
    apply not_elem_of_cons in Hno as [Hc Hno].
    rewrite bool_decide_eq_false_2 by congruence.
    rewrite IH by exact Hno. by rewrite string_app_assoc.
Qed.

Section FreezeMore.
Import DeployBundles.
Context {St : Type}.
Implicit Types (fs : filesystem) (options : task_options) (w : world St event).

(** X6: the steps that [freeze] returns have pairwise distinct [step_num]s. *)
Theorem freeze_step_nums_distinct fs options config step w (steps : list frozen_step) :
  fst (freeze fs options config step w) = Returned steps ->
  NoDup (map step_num steps).
Proof.
  destruct (listdir fs (opt_path options)) as [entries|e] eqn:Hl.
  2:{ unfold freeze. rewrite Hl. discriminate. }
  rewrite (freeze_returns _ _ _ _ _ _ Hl). cbn [fst]. intros [= <-].
  apply NoDup_alt. intros i j x Hi Hj.
  rewrite !list_lookup_fmap, enumerate_lookup in Hi, Hj.
  destruct (sorted entries !! i) as [item|]; [|discriminate].
  destruct (sorted entries !! j) as [item'|]; [|discriminate].
  cbn in Hi, Hj. injection Hi as <-. injection Hj as Hj.
  apply (inj (String.app (parent_step_num step))) in Hj.
  apply (inj (String.app ".")) in Hj. unfold str_of_nat in Hj.
  apply (inj pretty) in Hj. lia.
Qed.

(** X7: for a listing whose entries hold no slash, as the names that
    [os.listdir] gives, the step of entry [item] is named [Deploy ] followed
    by the path option, a slash and [item]; its [path] is the parent's, a dot
    and [item]; it is a required step of kind [metadata] run by
    [UpdateDependencies]. *)
Theorem freeze_step_of_entry fs options config step w
    (entries : list string) (i : nat) (item : string) :
  listdir fs (opt_path options) = Returned entries ->
  Forall (fun entry => "/"%char ∉ list_ascii_of_string entry) entries ->
  sorted entries !! i = Some item ->
  exists steps st,
    fst (freeze fs options config step w) = Returned steps /\
    steps !! i = Some st /\
    name st = "Deploy " +:+ opt_path options +:+ "/" +:+ item /\
    path st = parent_path step +:+ "." +:+ item /\
    kind st = "metadata" /\ is_required st = true /\
    task_class st = "cumulusci.tasks.salesforce.UpdateDependencies".
Proof.
  intros Hl Hno Hi. eexists. exists (freeze_step config step (opt_path options) (i + 1) item).
  split; [by rewrite (freeze_returns _ _ _ _ _ _ Hl)|].
  split.
  { rewrite list_lookup_fmap, enumerate_lookup, Hi. cbn.
    by replace (S i) with (i + 1) by lia. }
  assert (os_path_basename item = item) as Hb.
  { unfold os_path_basename. rewrite basename_from_no_sep; [reflexivity|].
    rewrite <- sorted_Permutation in Hno. rewrite Forall_forall in Hno.
    apply Hno. by eapply list_elem_of_lookup_2. }
  cbn. rewrite Hb. repeat split.
Qed.

End FreezeMore.

Lemma freeze_step_nums_distinct_witness :
  NoDup ["1.1"; "1.2"; "1.3"].
Proof.
  apply (freeze_step_nums_distinct (St:=nat) Scenario.bundle_fs Scenario.bundle_options
           Scenario.repo Scenario.parent Scenario.start
           (match fst (DeployBundles.freeze Scenario.bundle_fs Scenario.bundle_options
                         Scenario.repo Scenario.parent Scenario.start) with
            | Returned steps => steps
            | Raised _ => []
            end)).
  vm_compute. reflexivity.
Defined.

Lemma freeze_step_of_entry_witness :
  exists steps st,
    fst (DeployBundles.freeze Scenario.bundle_fs Scenario.bundle_options Scenario.repo
           Scenario.parent Scenario.start) = Returned steps /\
    steps !! 1 = Some st /\
    DeployBundles.name st = "Deploy unpackaged/pre/a" /\
    DeployBundles.path st = "deploy_pre.a" /\
    DeployBundles.kind st = "metadata" /\ DeployBundles.is_required st = true /\
    DeployBundles.task_class st = "cumulusci.tasks.salesforce.UpdateDependencies".
Proof.
  apply (freeze_step_of_entry (St:=nat) Scenario.bundle_fs Scenario.bundle_options
           Scenario.repo Scenario.parent Scenario.start ["b"; "README.md"; "a"] 1 "a").
  - reflexivity.
  - repeat constructor; vm_compute; intros H;
      repeat (apply elem_of_cons in H as [H|H]; [discriminate H|]);
      by apply elem_of_nil in H.
  - vm_compute. reflexivity.
Defined.

(** ** More on the resolution of the user *)

Lemma string_take_drop (k : nat) (s : string) :
  string_take k s +:+ string_drop k s = s.
Proof.
  revert s. induction k as [|k IH]; intros [|c s]; try reflexivity.
  cbn [string_take string_drop].
  change (String c (string_take k s +:+ string_drop k s) = String c s). by rewrite IH.
Qed.

Lemma string_drop_length (k : nat) (s : string) :
  String.length (string_drop k s) = String.length s - k.
Proof.
  revert s. induction k as [|k IH]; intros [|c s]; try reflexivity.
  cbn [string_drop String.length]. rewrite IH. lia.
Qed.

Section UserResolutionMore.
Import Photos.
Context {St : Type}.
Implicit Types (sf : sf_client St) (options : task_options) (w : world St event).

(** X8: when the platform answers the user query by an exception, the
    resolution ends there, after its log record and that one call: a
    [SalesforceMalformedRequest] is replaced by the [CumulusCIException] that
    [_raise_cumulusci_exception] builds from it, any other exception goes
    through as it is. *)
Theorem get_user_id_by_query_when_query_raises sf (wh : string) w (e : exn) :
  fst (query_all sf (user_query wh) (ext w)) = Raised e ->
  _get_user_id_by_query sf wh w =
  (Raised match e with
          | SalesforceMalformedRequest content =>
              CumulusCIException (join_errors content)
          | _ => e
          end,
   World (snd (query_all sf (user_query wh) (ext w)))
         (trace w ++ [Log INFO ("Querying User: " +:+ user_query wh);
                      QueryAll (user_query wh) (Raised e)])).
Proof.
  intros Hq. rewrite get_user_id_by_query_run. rewrite Hq. destruct e; reflexivity.
Qed.

(** X9: an identifier that the resolution returns is the [Id] of the one
    row that the platform answered: the resolution never picks a user among
    several, nor makes one up. *)
Theorem get_user_id_by_query_returned sf (wh : string) w (user_id : string) :
  fst (_get_user_id_by_query sf wh w) = Returned user_id ->
  exists record : row,
    fst (query_all sf (user_query wh) (ext w)) = Returned [record] /\
    record !! "Id" = Some user_id.
Proof.
  rewrite get_user_id_by_query_run.
  destruct (fst (query_all sf (user_query wh) (ext w))) as [records|e].
  2:{ destruct e; discriminate. }
  destruct (mapM _ records) as [[|u [|u' ids]]|] eqn:Hm; try discriminate.
  cbn [fst]. intros [= ->]. apply mapM_Some_1 in Hm.
  inversion Hm as [|record u records' ids Hid Hrest]; subst.
  inversion Hrest; subst. by exists record.
Qed.

(** X10: a row without an [Id] makes the resolution raise [KeyError],
    whatever the number of rows, with no second call to the platform. *)
Theorem get_user_id_by_query_row_without_id sf (wh : string) w
    (records : list row) (record : row) :
  fst (query_all sf (user_query wh) (ext w)) = Returned records ->
  record ∈ records ->
  record !! "Id" = None ->
  _get_user_id_by_query sf wh w =
  (Raised (KeyError "Id"),
   World (snd (query_all sf (user_query wh) (ext w)))
         (trace w ++ [Log INFO ("Querying User: " +:+ user_query wh);
                      QueryAll (user_query wh) (Returned records)])).
Proof.
  intros Hq Hin Hid. rewrite get_user_id_by_query_run. rewrite Hq.
  rewrite (mapM_None_2 _ records); [reflexivity|].
  apply Exists_exists. by exists record.
Qed.

(** X11: [get_default_user_id] asks the identity endpoint once and returns
    the end of the [identity] it answers: its last 18 characters, or all of
    it when it is shorter; it logs that identifier. *)
Theorem get_default_user_id_is_suffix sf w (response : gmap string string)
    (identity : string) :
  fst (restful sf "" "GET" None (ext w)) = Returned response ->
  response !! "identity" = Some identity ->
  exists user_id pre,
    get_default_user_id sf w =
      (Returned user_id,
       World (snd (restful sf "" "GET" None (ext w)))
         (trace w ++
          [Restful "" "GET" None (Returned response);
           Log INFO ("Uploading profile photo for the default User with ID "
                     +:+ user_id)])) /\
    identity = pre +:+ user_id /\
    String.length user_id = min 18 (String.length identity).
Proof.
  intros Hr Hi. exists (str_last 18 identity),
    (string_take (String.length identity - 18) identity).
  split; [|split].
  - unfold get_default_user_id, bind, call, lift, getitem, logger, emit, ret.
    destruct (restful sf "" "GET" None (ext w)) as [r s']. cbn [fst] in Hr. subst r.
    cbn [fst snd ext trace]. rewrite Hi. cbn [ext trace]. by rewrite <- app_assoc.
  - unfold str_last. by rewrite string_take_drop.
  - unfold str_last. rewrite string_drop_length. lia.
Qed.

(** X12: when the answer of the identity endpoint has no [identity], the
    method raises [KeyError] after that one call and logs nothing. *)
Theorem get_default_user_id_without_identity sf w (response : gmap string string) :
  fst (restful sf "" "GET" None (ext w)) = Returned response ->
  response !! "identity" = None ->
  get_default_user_id sf w =
    (Raised (KeyError "identity"),
     World (snd (restful sf "" "GET" None (ext w)))
           (trace w ++ [Restful "" "GET" None (Returned response)])).
Proof.
  intros Hr Hi.
  unfold get_default_user_id, bind, call, lift, getitem, logger, emit, ret.
  destruct (restful sf "" "GET" None (ext w)) as [r s']. cbn [fst] in Hr. subst r.
  cbn [fst snd ext trace]. by rewrite Hi.
Qed.

End UserResolutionMore.

Lemma get_user_id_by_query_when_query_raises_witness :
  Photos._get_user_id_by_query
    (Cases.org_of (Raised (SalesforceMalformedRequest Scenario.rejection))
                  Cases.created_ok [Scenario.version_row] Cases.identity_row)
    "Alias = " Scenario.org_start
  = (Raised (CumulusCIException None),
     World tt [Photos.Log INFO "Querying User: SELECT Id FROM User WHERE Alias = ";
               Photos.QueryAll "SELECT Id FROM User WHERE Alias = "
                 (Raised (SalesforceMalformedRequest Scenario.rejection))]).
Proof.
  apply (get_user_id_by_query_when_query_raises
           (Cases.org_of (Raised (SalesforceMalformedRequest Scenario.rejection))
                         Cases.created_ok [Scenario.version_row] Cases.identity_row)
           "Alias = " Scenario.org_start (SalesforceMalformedRequest Scenario.rejection)).
  reflexivity.
Defined.

Lemma get_user_id_by_query_returned_witness :
  exists record : gmap string string,
    fst (Photos.query_all (Scenario.org [Scenario.grace] true)
           (Photos.user_query "Alias = 'grace'") (ext Scenario.org_start))
    = Returned [record] /\
    record !! "Id" = Some "005A".
Proof.
  apply (get_user_id_by_query_returned (Scenario.org [Scenario.grace] true)
           "Alias = 'grace'" Scenario.org_start "005A").
  vm_compute. reflexivity.
Defined.

Lemma get_user_id_by_query_row_without_id_witness :
  fst (Photos._get_user_id_by_query
         (Cases.org_of (Returned [Scenario.grace; Cases.nameless])
                       Cases.created_ok [Scenario.version_row] Cases.identity_row)
         "Alias = 'grace'" Scenario.org_start)
  = Raised (KeyError "Id").
Proof.
  rewrite (get_user_id_by_query_row_without_id
             (Cases.org_of (Returned [Scenario.grace; Cases.nameless])
                           Cases.created_ok [Scenario.version_row] Cases.identity_row)
             "Alias = 'grace'" Scenario.org_start
             [Scenario.grace; Cases.nameless] Cases.nameless).
  - reflexivity.
  - reflexivity.
  - apply list_elem_of_further, list_elem_of_here.
  - vm_compute. reflexivity.
Defined.

Lemma get_default_user_id_is_suffix_witness :
  exists user_id pre,
    fst (Photos.get_default_user_id
           (Cases.org_of (Returned []) Cases.created_ok [] Cases.identity_row)
           Scenario.org_start) = Returned user_id /\
    "https://login.salesforce.com/id/00D000000000001EAA/005000000000002AAA"
      = pre +:+ user_id /\
    String.length user_id = 18.
Proof.
  destruct (get_default_user_id_is_suffix
              (Cases.org_of (Returned []) Cases.created_ok [] Cases.identity_row)
              Scenario.org_start Cases.identity_row
              "https://login.salesforce.com/id/00D000000000001EAA/005000000000002AAA")
    as (user_id & pre & Hrun & Hpre & Hlen).
  - reflexivity.
  - vm_compute. reflexivity.
  - exists user_id, pre. split; [by rewrite Hrun|]. split; [exact Hpre|exact Hlen].
Defined.

Lemma get_default_user_id_without_identity_witness :
  fst (Photos.get_default_user_id
         (Cases.org_of (Returned []) Cases.created_ok [] Cases.nameless)
         Scenario.org_start) = Raised (KeyError "identity").
Proof.
  rewrite (get_default_user_id_without_identity
             (Cases.org_of (Returned []) Cases.created_ok [] Cases.nameless)
             Scenario.org_start Cases.nameless).
  - reflexivity.
  - reflexivity.
  - vm_compute. reflexivity.
Defined.

(** ** More on the schema and the filters *)

Section GetQueryMore.
Import Photos.
Context {St : Type}.
Implicit Types (sf : sf_client St) (w : world St event) (fields : list user_field).

(** The loop over the filters makes no call and leaves the trace as it is. *)
Lemma get_query_loop_world (user_fields : gmap string user_field)
    (items : list (string * pyvalue)) (acc : list string) w :
  snd (_get_query_loop (St:=St) user_fields items acc w) = w.
Proof.
  revert acc. induction items as [|[name value] items IH]; intros acc; [reflexivity|].
  cbn [_get_query_loop]. destruct (user_fields !! name) as [f|]; [|reflexivity].
  destruct (filterable f); cbn [negb]; [|reflexivity].
  destruct (bool_decide _); apply IH.
Qed.

(** The loop over filters that pass, then others. *)
Lemma get_query_loop_app fields (good items : list (string * pyvalue))
    (acc : list string) w :
  Forall (fun item => Spec.can_filter fields (fst item)) good ->
  _get_query_loop (user_fields_of fields) (good ++ items) acc w =
  _get_query_loop (user_fields_of fields) items
    (acc ++ map (Spec.render_filter fields) good) w.
Proof.
  revert acc. induction good as [|[name value] good IH]; intros acc Hall.
  - cbn. by rewrite app_nil_r.
  - apply Forall_cons in Hall as [(f & Hf & Hfilt) Hall]. cbn [fst] in Hf.
    cbn [app _get_query_loop map]. rewrite user_fields_of_lookup.
    unfold Spec.render_filter at 1, Spec.is_string_field, Spec.render_term.
    cbn [fst snd]. rewrite Hf, Hfilt. cbn [negb].
    unfold Spec.is_string_typed, string_soap_types.
    destruct (bool_decide _); rewrite IH by done; by rewrite <- app_assoc.
Qed.

(** X13: the dictionary of [_get_user_fields] has a key for each name that
    [describe] lists and no other; the field under a key bears that name and
    is one that was listed, the last one when the name is listed twice. *)
Theorem get_user_fields_keys sf w fields :
  fst (User_describe sf (ext w)) = Returned fields ->
  exists user_fields : gmap string user_field,
    fst (_get_user_fields sf w) = Returned user_fields /\
    (forall name, is_Some (user_fields !! name) <-> name ∈ map field_name fields) /\
    (forall name f, user_fields !! name = Some f -> field_name f = name /\ f ∈ fields) /\
    (forall pre f post, fields = pre ++ f :: post ->
       field_name f ∉ map field_name post ->
       user_fields !! field_name f = Some f).
Proof.
  intros Hd. exists (user_fields_of fields). split; [|split; [|split]].
  - unfold _get_user_fields, bind, call, ret.
    destruct (User_describe sf (ext w)) as [r s']. cbn [fst] in Hd. by subst r.
  - intros name. rewrite user_fields_of_lookup. unfold Spec.schema_field.
    rewrite last_is_Some. split.
    + intros Hne. destruct (filter _ fields) as [|f l] eqn:E; [done|].
      assert (f ∈ filter (fun f => field_name f = name) fields) as Hin
        by (rewrite E; apply list_elem_of_here).
      apply list_elem_of_filter in Hin as [<- Hin].
      by apply list_elem_of_fmap_2.
    + intros Hin Hnil. apply list_elem_of_fmap in Hin as (f & -> & Hin).
      by apply (filter_nil_not_elem_of _ _ f Hnil).
  - intros name f. rewrite user_fields_of_lookup. unfold Spec.schema_field.
    intros Hl. apply last_Some_elem_of in Hl.
    by apply list_elem_of_filter in Hl.
  - intros pre f post -> Hno. rewrite user_fields_of_lookup. unfold Spec.schema_field.
    rewrite filter_app, filter_cons_True by done.
    replace (filter (fun f0 => field_name f0 = field_name f) post) with (@nil user_field).
    + by rewrite last_snoc.
    + clear -Hno. induction post as [|g post IH]; [reflexivity|].
      cbn [map] in Hno. apply not_elem_of_cons in Hno as [Hg Hno].
      rewrite filter_cons_False by congruence. by apply IH.
Qed.

End GetQueryMore.

Section GetQueryCalls.
Import Photos.
Context {St : Type}.
Implicit Types (sf : sf_client St) (w : world St event) (fields : list user_field).

(** X14: [_get_query] makes one call to the platform and no other, the
    description of the schema, however many filters it is given: the schema is
    not described again for each filter, and the query it builds is returned,
    not run. When that call raises, [_get_query] raises the same. *)
Theorem get_query_describes_once sf (filters : list (string * pyvalue)) w :
  snd (_get_query sf filters w) =
    World (snd (User_describe sf (ext w)))
          (trace w ++ [Describe (fst (User_describe sf (ext w)))]) /\
  forall e, fst (User_describe sf (ext w)) = Raised e ->
            fst (_get_query sf filters w) = Raised e.
Proof.
  unfold _get_query, _get_user_fields, bind, call, ret.
  destruct (User_describe sf (ext w)) as [[fields|e] s']; cbn [fst snd].
  - split; [|discriminate].
    match goal with |- context [_get_query_loop ?uf filters [] ?w0] =>
      pose proof (get_query_loop_world uf filters [] w0) as Hw;
      destruct (_get_query_loop uf filters [] w0) as [[qs|e] w1] end;
      cbn [snd] in Hw; by subst w1.
  - split; [reflexivity|]. by intros e' [= ->].
Qed.

(** X15: the error of [_get_query] is about the first filter, in the order
    of the filters, that names no field of the schema or a field that is not
    filterable: the filters after it are not looked at. *)
Theorem get_query_first_offender sf (good rest : list (string * pyvalue))
    (name : string) (value : pyvalue) w fields :
  fst (User_describe sf (ext w)) = Returned fields ->
  Forall (fun item => Spec.can_filter fields (fst item)) good ->
  ~ Spec.can_filter fields name ->
  fst (_get_query sf (good ++ (name, value) :: rest) w) =
  Raised (CumulusCIException (Some
    match Spec.schema_field fields name with
    | None => field_not_found name
    | Some _ => field_not_filterable name
    end)).
Proof.
  intros Hd Hgood Hbad. unfold _get_query, _get_user_fields, bind at 1 2, call, ret.
  destruct (User_describe sf (ext w)) as [r s']. cbn [fst] in Hd. subst r.
  unfold bind. rewrite (get_query_loop_app fields good _ _ _ Hgood).
  cbn [_get_query_loop]. rewrite user_fields_of_lookup.
  destruct (Spec.schema_field fields name) as [f|] eqn:Hf; [|reflexivity].
  destruct (filterable f) eqn:Hfilt; [|reflexivity].
  exfalso. apply Hbad. by exists f.
Qed.

(** X16: with no filter at all [_get_query] raises nothing: it returns the
    query with nothing after [WHERE ]. *)
Theorem get_query_without_filters sf w fields :
  fst (User_describe sf (ext w)) = Returned fields ->
  fst (_get_query sf [] w) = Returned "SELECT Id FROM User WHERE ".
Proof.
  intros Hd. unfold _get_query, _get_user_fields, bind, call, ret.
  destruct (User_describe sf (ext w)) as [r s']. cbn [fst] in Hd. by subst r.
Qed.

End GetQueryCalls.

Lemma get_user_fields_keys_witness :
  exists user_fields : gmap string Photos.user_field,
    fst (Photos._get_user_fields
           (Cases.org_of (Returned []) Cases.created_ok [] Cases.identity_row)
           Scenario.org_start) = Returned user_fields /\
    user_fields !! "Alias" = Some (Photos.UserField "Alias" false "xsd:int") /\
    user_fields !! "alias" = None.
Proof.
  destruct (get_user_fields_keys
              (Cases.org_of (Returned []) Cases.created_ok [] Cases.identity_row)
              Scenario.org_start
              (Scenario.user_schema ++ [Photos.UserField "Alias" false "xsd:int"]))
    as (user_fields & Hrun & Hkeys & _ & Hlast).
  - reflexivity.
  - exists user_fields. split; [exact Hrun|]. split.
    + apply (Hlast Scenario.user_schema (Photos.UserField "Alias" false "xsd:int") []);
        [reflexivity|]. apply not_elem_of_nil.
    + apply eq_None_not_Some. rewrite Hkeys. vm_compute. intros H.
      repeat (apply elem_of_cons in H as [H|H]; [discriminate H|]).
      by apply elem_of_nil in H.
Defined.

Lemma get_query_first_offender_witness :
  fst (Photos._get_query (Scenario.org [] true)
         [("Alias", VStr "grace"); ("AboutMe", VStr "x"); ("alias", VStr "y")]
         Scenario.org_start)
  = Raised (CumulusCIException (Some (Photos.field_not_filterable "AboutMe"))).
Proof.
  apply (get_query_first_offender (Scenario.org [] true)
           [("Alias", VStr "grace")] [("alias", VStr "y")] "AboutMe" (VStr "x")
           Scenario.org_start Scenario.user_schema).
  - reflexivity.
  - repeat constructor. eexists. split; vm_compute; reflexivity.
  - intros (f & Hf & Hfilt). vm_compute in Hf. injection Hf as <-. discriminate Hfilt.
Defined.

Lemma get_query_without_filters_witness :
  fst (Photos._get_query (Scenario.org [] true) [] Scenario.org_start)
  = Returned "SELECT Id FROM User WHERE ".
Proof.
  apply (get_query_without_filters (Scenario.org [] true) Scenario.org_start
           Scenario.user_schema).
  reflexivity.
Defined.

Lemma get_query_describes_once_witness :
  snd (Photos._get_query (Scenario.org [] true)
         [("Alias", VStr "grace"); ("IsActive", VStr "true"); ("alias", VStr "y")]
         Scenario.org_start)
  = World tt [Photos.Describe (Returned Scenario.user_schema)].
Proof.
  apply (proj1 (get_query_describes_once (Scenario.org [] true)
                  [("Alias", VStr "grace"); ("IsActive", VStr "true"); ("alias", VStr "y")]
                  Scenario.org_start)).
Defined.

(** ** More on the upload *)

Section UploadMore.
Import Photos.
Context {St : Type}.
Implicit Types (sf : sf_client St) (fs : filesystem) (options : task_options)
  (w : world St event).

(** [_insert_content_document] asks for no deletion and makes no generic
    REST call, however it ends. *)
Lemma insert_content_document_calls sf fs options w :
  exists evs : list event,
    trace (snd (_insert_content_document sf fs options w)) = trace w ++ evs /\
    deletes evs = [] /\
    Forall (fun ev => is_restful ev = false) evs.
Proof.
  unfold _insert_content_document, bind, call, logger, emit, lift, ret, raise.
  destruct (exists_ fs (path_str (photo options))); cbn [negb].
  2:{ exists []. split; [by rewrite app_nil_r|]. by split. }
  cbn [fst snd ext trace].
  destruct (read_bytes fs (path_str (photo options))) as [bytes|e].
  2:{ eexists. split; [reflexivity|]. split; [reflexivity|]. repeat constructor. }
  cbn [ext trace].
  destruct (ContentVersion_create sf _ (ext w)) as [[res|e] s2].
  2:{ eexists. cbn [snd trace]. rewrite <- app_assoc. split; [reflexivity|].
      split; [reflexivity|]. repeat constructor. }
  destruct (success res); cbn [negb].
  2:{ eexists. cbn [snd trace]. rewrite <- app_assoc. split; [reflexivity|].
      split; [reflexivity|]. repeat constructor. }
  cbn [ext trace].
  destruct (query sf _ s2) as [[[|record records]|e] s3].
  1,3: eexists; cbn [snd trace]; rewrite <- !app_assoc; (split; [reflexivity|]);
       (split; [reflexivity|]); repeat constructor.
  unfold getitem. destruct (record !! "ContentDocumentId") as [doc|];
    eexists; cbn [snd ext trace]; rewrite <- !app_assoc; (split; [reflexivity|]);
    (split; [reflexivity|]); repeat constructor.
Qed.

Lemma deletes_app (tr1 tr2 : list event) :
  deletes (tr1 ++ tr2) = deletes tr1 ++ deletes tr2.
Proof. unfold deletes. apply omap_app. Qed.

(** X17: when the platform answers the creation of the content version
    with [success] false, the upload raises [CumulusCIException] with the
    errors of the answer, after the log record and that one call: it does not
    look for a document, set a photo or delete anything. *)
Theorem uploadPhoto_when_create_unsuccessful sf fs options (user_id : string) w
    (bytes : string) (res : create_result) :
  let fields := {| PathOnClient := path_name (photo options);
                   Title := path_stem (photo options);
                   VersionData := b64encode bytes |} in
  exists_ fs (path_str (photo options)) = true ->
  read_bytes fs (path_str (photo options)) = Returned bytes ->
  fst (ContentVersion_create sf fields (ext w)) = Returned res ->
  success res = false ->
  uploadPhoto sf fs options user_id w =
  (Raised (CumulusCIException (Some (
     "Failed to create photo ContentVersion: " +:+ errors res))),
   World (snd (ContentVersion_create sf fields (ext w)))
     (trace w ++
      [Log INFO ("Setting user photo to " +:+ path_str (photo options));
       Create fields (Returned res)])).
Proof.
  intros fields He Hb Hc Hs.
  unfold uploadPhoto, _insert_content_document, bind, call, logger, emit, lift, ret, raise.
  rewrite He, Hb. cbn [negb fst snd ext trace]. fold fields.
  destruct (ContentVersion_create sf fields (ext w)) as [r s2]. cbn [fst] in Hc. subst r.
  rewrite Hs. cbn [negb snd]. by rewrite <- app_assoc.
Qed.

(** X18: when the content version is created and the query for its
    document answers no row, the upload raises [IndexError] after that query:
    the photo is not set and nothing is deleted, the content version stays. *)
Theorem uploadPhoto_when_no_document_row sf fs options (user_id : string) w
    (bytes : string) (res : create_result) :
  let fields := {| PathOnClient := path_name (photo options);
                   Title := path_stem (photo options);
                   VersionData := b64encode bytes |} in
  let soql := "SELECT Id, ContentDocumentId FROM ContentVersion WHERE Id = '"
              +:+ id res +:+ "'" in
  let s2 := snd (ContentVersion_create sf fields (ext w)) in
  exists_ fs (path_str (photo options)) = true ->
  read_bytes fs (path_str (photo options)) = Returned bytes ->
  fst (ContentVersion_create sf fields (ext w)) = Returned res ->
  success res = true ->
  fst (query sf soql s2) = Returned [] ->
  uploadPhoto sf fs options user_id w =
  (Raised IndexError,
   World (snd (query sf soql s2))
     (trace w ++
      [Log INFO ("Setting user photo to " +:+ path_str (photo options));
       Create fields (Returned res);
       Query soql (Returned [])])).
Proof.
  intros fields soql s2 He Hb Hc Hs Hq. subst s2.
  unfold uploadPhoto, _insert_content_document, bind, call, logger, emit, lift, ret, raise.
  rewrite He, Hb. cbn [negb fst snd ext trace]. fold fields.
  destruct (ContentVersion_create sf fields (ext w)) as [r s2]. cbn [fst] in Hc. subst r.
  rewrite Hs. cbn [negb snd ext trace] in *. fold soql.
  destruct (query sf soql s2) as [r s3]. cbn [fst] in Hq. subst r.
  cbn [snd]. by rewrite <- !app_assoc.
Qed.

(** X19: in every run of the upload the events it adds hold no deletion,
    or hold the rejected call that sets the photo and one deletion, of the
    document of that call: a failure before that call, or any other failure
    of it, deletes nothing. *)
Theorem uploadPhoto_deletes_only_after_rejection sf fs options (user_id : string) w :
  exists new : list event,
    trace (snd (uploadPhoto sf fs options user_id w)) = trace w ++ new /\
    (deletes new = [] \/
     exists doc content,
       Restful (photo_endpoint user_id) "POST" (Some (photo_body doc))
               (Raised (SalesforceMalformedRequest content)) ∈ new /\
       deletes new = [doc]).
Proof.
  destruct (insert_content_document_calls sf fs options w) as (evs & Htr & Hdel & _).
  destruct (_insert_content_document sf fs options w) as [[doc|e] w1] eqn:Hrun.
  2:{ exists evs. unfold uploadPhoto, bind. rewrite Hrun. cbn [snd] in *.
      split; [exact Htr|by left]. }
  rewrite (uploadPhoto_after_insert _ _ _ _ _ _ _ Hrun). cbn [snd] in Htr.
  destruct (fst (restful sf (photo_endpoint user_id) "POST" (Some (photo_body doc)) (ext w1)))
    as [resp|e]; [|destruct e].
  all: cbn [snd trace]; rewrite Htr, <- ?app_assoc; eexists; (split; [reflexivity|]).
  all: rewrite ?deletes_app, Hdel; cbn; try (by left).
  right. exists doc, content. split; [|reflexivity].
  apply elem_of_app. right. apply list_elem_of_here.
Qed.

End UploadMore.

Section PhotoTaskMore.
Import Photos.
Context {St : Type}.
Implicit Types (sf : sf_client St) (fs : filesystem) (options : task_options)
  (w : world St event).

(** X20: with a [where] option, when the query answers no user or more
    than one, the task raises [CumulusCIException] after that query, its only
    call to the platform: no content version is created for a user that is
    not resolved. *)
Theorem run_task_uploads_nothing_without_one_user sf fs options
    (inherited : option (M St event string)) (wh : string) w
    (records : list row) (user_ids : list string) :
  where_ options = Some wh ->
  wh <> "" ->
  fst (query_all sf (user_query wh) (ext w)) = Returned records ->
  mapM (fun record : row => record !! "Id") records = Some user_ids ->
  length user_ids <> 1 ->
  exists msg,
    _run_task sf fs options inherited w =
    (Raised (CumulusCIException (Some msg)),
     World (snd (query_all sf (user_query wh) (ext w)))
           (trace w ++ [Log INFO ("Querying User: " +:+ user_query wh);
                        QueryAll (user_query wh) (Returned records)])).
Proof.
  intros Hw Hne Hq Hids Hlen. unfold _run_task, bind, resolve_user_id.
  rewrite Hw, bool_decide_eq_false_2 by exact Hne.
  rewrite get_user_id_by_query_run, Hq, Hids.
  destruct user_ids as [|u [|u' ids]]; [|done|]; eexists; reflexivity.
Qed.

(** X21: a run that goes well. With a [where] option, one user matching, the
    photo on disk, the content version created and its document found, and the
    photo call accepted, the task returns None after these calls, in this
    order: the user query, the creation with the file's name, stem and encoded
    bytes, the query for the document, and the photo call, made on the
    endpoint of the user resolved with the document found as its [fileId]. *)
Theorem run_task_uploads_for_resolved_user sf fs options
    (inherited : option (M St event string)) (wh : string) w
    (record : row) (user_id bytes : string) (res : create_result)
    (version : row) (versions : list row) (doc : string)
    (response : gmap string string) (s1 s2 s3 s4 : St) :
  let fields := {| PathOnClient := path_name (photo options);
                   Title := path_stem (photo options);
                   VersionData := b64encode bytes |} in
  let soql := "SELECT Id, ContentDocumentId FROM ContentVersion WHERE Id = '"
              +:+ id res +:+ "'" in
  where_ options = Some wh ->
  wh <> "" ->
  query_all sf (user_query wh) (ext w) = (Returned [record], s1) ->
  record !! "Id" = Some user_id ->
  exists_ fs (path_str (photo options)) = true ->
  read_bytes fs (path_str (photo options)) = Returned bytes ->
  ContentVersion_create sf fields s1 = (Returned res, s2) ->
  success res = true ->
  query sf soql s2 = (Returned (version :: versions), s3) ->
  version !! "ContentDocumentId" = Some doc ->
  restful sf (photo_endpoint user_id) "POST" (Some (photo_body doc)) s3
    = (Returned response, s4) ->
  _run_task sf fs options inherited w =
  (Returned tt,
   World s4
     (trace w ++
      [Log INFO ("Querying User: " +:+ user_query wh);
       QueryAll (user_query wh) (Returned [record]);
       Log INFO ("Uploading profile photo for the User with ID " +:+ user_id);
       Log INFO ("Setting user photo to " +:+ path_str (photo options));
       Create fields (Returned res);
       Query soql (Returned (version :: versions));
       Log INFO ("Uploaded profile photo ContentDocument " +:+ doc);
       Restful (photo_endpoint user_id) "POST" (Some (photo_body doc))
               (Returned response)])).
Proof.
  intros fields soql Hw Hne Hq Hid He Hb Hc Hs Hv Hdoc Hr.
  unfold _run_task, bind at 1, resolve_user_id.
  rewrite Hw, bool_decide_eq_false_2 by exact Hne.
  rewrite get_user_id_by_query_run, Hq. cbn [fst snd mapM]. rewrite Hid.
  cbn [mbind option_bind mret option_ret ext trace].
  assert (forall tr, _insert_content_document sf fs options (World s1 tr) =
            (Returned doc,
             World s3 (tr ++
               [Log INFO ("Setting user photo to " +:+ path_str (photo options));
                Create fields (Returned res);
                Query soql (Returned (version :: versions));
                Log INFO ("Uploaded profile photo ContentDocument " +:+ doc)]))) as Hins.
  { intros tr.
    unfold _insert_content_document, bind, call, logger, emit, lift, ret, raise, getitem.
    rewrite He, Hb. cbn [negb fst snd ext trace]. fold fields. rewrite Hc, Hs.
    cbn [negb ext trace]. fold soql. rewrite Hv, Hdoc. cbn [ext trace].
    by rewrite <- !app_assoc. }
  rewrite (uploadPhoto_after_insert _ _ _ _ _ _ _ (Hins _)). cbn [ext trace].
  rewrite Hr. cbn [fst snd]. by rewrite <- !app_assoc.
Qed.

End PhotoTaskMore.

Lemma uploadPhoto_when_create_unsuccessful_witness :
  Photos.uploadPhoto
    (Cases.org_of (Returned [Scenario.grace]) Cases.created_ko [] Cases.identity_row)
    Scenario.photo_fs (Scenario.photo_options None) "005A" Scenario.org_start
  = (Raised (CumulusCIException (Some
       "Failed to create photo ContentVersion: ['STORAGE_LIMIT_EXCEEDED']")),
     World tt
       [Photos.Log INFO "Setting user photo to datasets/profile.png";
        Photos.Create (Photos.ContentVersion "profile.png" "profile" "TWFu")
                      (Returned Cases.created_ko)]).
Proof.
  apply (uploadPhoto_when_create_unsuccessful
           (Cases.org_of (Returned [Scenario.grace]) Cases.created_ko []
                         Cases.identity_row)
           Scenario.photo_fs (Scenario.photo_options None) "005A" Scenario.org_start
           "Man" Cases.created_ko); reflexivity.
Defined.

Lemma uploadPhoto_when_no_document_row_witness :
  Photos.uploadPhoto
    (Cases.org_of (Returned [Scenario.grace]) Cases.created_ok [] Cases.identity_row)
    Scenario.photo_fs (Scenario.photo_options None) "005A" Scenario.org_start
  = (Raised IndexError,
     World tt
       [Photos.Log INFO "Setting user photo to datasets/profile.png";
        Photos.Create (Photos.ContentVersion "profile.png" "profile" "TWFu")
                      (Returned Cases.created_ok);
        Photos.Query "SELECT Id, ContentDocumentId FROM ContentVersion WHERE Id = '068X'"
                     (Returned [])]).
Proof.
  apply (uploadPhoto_when_no_document_row
           (Cases.org_of (Returned [Scenario.grace]) Cases.created_ok []
                         Cases.identity_row)
           Scenario.photo_fs (Scenario.photo_options None) "005A" Scenario.org_start
           "Man" Cases.created_ok); reflexivity.
Defined.

Lemma uploadPhoto_deletes_only_after_rejection_witness :
  exists new : list Photos.event,
    trace (snd (Photos.uploadPhoto (Scenario.org [Scenario.grace] false)
                  Scenario.photo_fs (Scenario.photo_options None) "005A"
                  Scenario.org_start)) = trace Scenario.org_start ++ new /\
    (Photos.deletes new = [] \/
     exists doc content,
       Photos.Restful (Photos.photo_endpoint "005A") "POST"
         (Some (Photos.photo_body doc))
         (Raised (SalesforceMalformedRequest content)) ∈ new /\
       Photos.deletes new = [doc]).
Proof.
  exact (uploadPhoto_deletes_only_after_rejection (Scenario.org [Scenario.grace] false)
           Scenario.photo_fs (Scenario.photo_options None) "005A" Scenario.org_start).
Defined.

Lemma run_task_uploads_nothing_without_one_user_witness :
  exists msg,
    Photos._run_task (Scenario.org [Scenario.grace; Scenario.grace'] true)
      Scenario.photo_fs (Scenario.photo_options (Some "Alias = 'grace'")) None
      Scenario.org_start
    = (Raised (CumulusCIException (Some msg)),
       World tt
         [Photos.Log INFO "Querying User: SELECT Id FROM User WHERE Alias = 'grace'";
          Photos.QueryAll "SELECT Id FROM User WHERE Alias = 'grace'"
            (Returned [Scenario.grace; Scenario.grace'])]).
Proof.
  apply (run_task_uploads_nothing_without_one_user
           (Scenario.org [Scenario.grace; Scenario.grace'] true)
           Scenario.photo_fs (Scenario.photo_options (Some "Alias = 'grace'")) None
           "Alias = 'grace'" Scenario.org_start
           [Scenario.grace; Scenario.grace'] ["005A"; "005B"]).
  - reflexivity.
  - discriminate.
  - reflexivity.
  - vm_compute. reflexivity.
  - discriminate.
Defined.

Lemma run_task_uploads_for_resolved_user_witness :
  fst (Photos._run_task (Scenario.org [Scenario.grace] true) Scenario.photo_fs
         (Scenario.photo_options (Some "Alias = 'grace'")) None Scenario.org_start)
  = Returned tt.
Proof.
  rewrite (run_task_uploads_for_resolved_user (Scenario.org [Scenario.grace] true)
             Scenario.photo_fs (Scenario.photo_options (Some "Alias = 'grace'")) None
             "Alias = 'grace'" Scenario.org_start Scenario.grace "005A" "Man"
             (Photos.CreateResult true "068X" "[]") Scenario.version_row [] "069D"
             ∅ tt tt tt tt).
  - reflexivity.
  - reflexivity.
  - discriminate.
  - reflexivity.
  - vm_compute. reflexivity.
  - reflexivity.
  - reflexivity.
  - reflexivity.
  - reflexivity.
  - reflexivity.
  - vm_compute. reflexivity.
  - reflexivity.
Defined.
